(** * Fuel-Price-Analysis-USA: the fetch / clean / chart pipeline

    A shallow embedding of [scripts/fetch_data.py], [scripts/clean_data.py],
    [scripts/visualize_plotly.py] and [main.py].

    The program is a sequence of pandas calls on DataFrame objects that are
    passed by reference, so the embedding has three layers:

    - the pandas operations the scripts call, as pure functions on a
      [DataFrame] value (columns with their dtypes, rows with their index
      labels);
    - a store ([world]) holding the DataFrame objects, the directories and
      the files, and a state-and-exception monad [M] over it: a Python
      exception keeps every mutation made before it was raised;
    - the functions of the repository, written in [M] statement by
      statement.

    Conventions.  A float64 is an IEEE 754 binary64 number: sign, mantissa
    and exponent, the infinities, and NaN; sums, differences, products and
    quotients are rounded to nearest, ties to even, as the processor does
    ([SpecFloat] with a precision of 53 bits).  What pandas, requests and
    plotly decide on their own (which strings parse as dates or numbers, how
    a label is title-cased, which chart arguments plotly accepts, what the
    seaborn charts do) is taken through the interfaces [Pandas], [Plotly]
    and [Seaborn]; general theorems hold for every instance, and the
    instances [pandas_ascii] and [plotly_columns] are used to run the
    pipeline on concrete tables.  The operating system and the network are
    taken to work: creating a directory and writing a file succeed, and a
    request is answered; OSError and the exceptions of [requests] are not
    part of the world. *)

From Stdlib Require Import QArith Qcanon Qround ZArith String Ascii List.
From Stdlib Require Import Floats.SpecFloat.
From stdpp Require Import base decidable option numbers sorting gmap strings list fin_maps.

Local Open Scope Z_scope.

(** ** Values *)

(** The numbers of a float64: zero, the infinities, and the finite numbers
    (-1)^negative · mantissa · 2^exponent, in the canonical form every
    operation returns (a mantissa below 2^53, an exponent from -1074 to
    971).  The two zeros are one value here: they compare equal and count
    as equal in [drop_duplicates], and the arithmetic of the scripts (sums,
    differences, products, a division by 2, comparisons) gives the same
    numbers from either; the sign a zero is printed with is not recorded. *)
Inductive binary64 :=
  | Zero
  | Infinity (negative : bool)
  | Finite (negative : bool) (mantissa : positive) (exponent : Z).

Global Instance binary64_eq_dec : EqDecision binary64.
Proof. solve_decision. Defined.
Global Instance binary64_inhabited : Inhabited binary64 := populate Zero.

(** float64: a number, or NaN ([None]). *)
Definition float64 := option binary64.

Definition prec : Z := 53.
Definition emax : Z := 1024.

Definition to_spec (a : float64) : spec_float :=
  match a with
  | None => S754_nan
  | Some Zero => S754_zero false
  | Some (Infinity s) => S754_infinity s
  | Some (Finite s m e) => S754_finite s m e
  end.

Definition of_spec (x : spec_float) : float64 :=
  match x with
  | S754_nan => None
  | S754_zero _ => Some Zero
  | S754_infinity s => Some (Infinity s)
  | S754_finite s m e => Some (Finite s m e)
  end.

(** [a + b], [a - b], [a * b], [a / b] on float64. *)
Definition fadd (a b : float64) : float64 :=
  of_spec (SFadd prec emax (to_spec a) (to_spec b)).
Definition fsub (a b : float64) : float64 :=
  of_spec (SFsub prec emax (to_spec a) (to_spec b)).
Definition fmul (a b : float64) : float64 :=
  of_spec (SFmul prec emax (to_spec a) (to_spec b)).
Definition fdiv (a b : float64) : float64 :=
  of_spec (SFdiv prec emax (to_spec a) (to_spec b)).
(** Comparisons with NaN are false. *)
Definition fle (a b : float64) : bool := SFleb (to_spec a) (to_spec b).
Definition flt (a b : float64) : bool := SFltb (to_spec a) (to_spec b).
Definition fge (a b : float64) : bool := fle b a.
Definition fopp (a : float64) : float64 := of_spec (SFopp (to_spec a)).

(** The float64 nearest to the fraction [n / d]: what Python reads in a
    literal such as [1.5] or [0.25], and what [float] makes of a decimal
    string.  The quotient of two integers other than zero is rounded once
    and is never NaN. *)
Definition nearest (n : Z) (d : positive) : binary64 :=
  let quotient (s : bool) (m : positive) : binary64 :=
    default Zero
      (of_spec (SFdiv prec emax (S754_finite s m 0) (S754_finite false d 0))) in
  match n with
  | Z0 => Zero
  | Zpos m => quotient false m
  | Zneg m => quotient true m
  end.

(** One cell of a table.  [NA] stands for None, NaN and NaT alike: pandas
    treats the three as missing; [Num] holds the other float64 values. *)
Inductive cell :=
  | NA
  | Str (s : string)
  | Num (x : binary64)
  | Timestamp (year month day : Z).

Global Instance cell_eq_dec : EqDecision cell.
Proof. solve_decision. Defined.
Global Instance cell_inhabited : Inhabited cell := populate NA.

Definition isna (c : cell) : bool :=
  match c with NA => true | _ => false end.

Definition fillna (v c : cell) : cell := if isna c then v else c.

Definition to_float (c : cell) : float64 :=
  match c with Num x => Some x | _ => None end.
Definition of_float (x : float64) : cell :=
  match x with Some v => Num v | None => NA end.

Inductive dtype := object | number | datetime64.

Global Instance dtype_eq_dec : EqDecision dtype.
Proof. solve_decision. Defined.

(** ** DataFrame *)

Record DataFrame := mkDataFrame {
  columns : list (string * dtype);
  rows : list (nat * gmap string cell)
}.

Global Instance DataFrame_inhabited : Inhabited DataFrame :=
  populate (mkDataFrame [] []).

(** [pd.DataFrame()] *)
Definition DataFrame_empty : DataFrame := mkDataFrame [] [].

Definition names (df : DataFrame) : list string := (columns df).*1.

Definition has_column (c : string) (df : DataFrame) : bool :=
  bool_decide (c ∈ names df).

(** [df.empty]: an axis of length 0. *)
Definition empty (df : DataFrame) : bool :=
  match columns df, rows df with
  | [], _ | _, [] => true
  | _, _ => false
  end.

(** The cells of column [c], in row order. *)
Definition column (c : string) (df : DataFrame) : list cell :=
  (λ ir, ir.2 !!! c) <$> rows df.

Fixpoint set_dtype (c : string) (dt : dtype) (cols : list (string * dtype))
  : list (string * dtype) :=
  match cols with
  | [] => [(c, dt)]
  | (c', dt') :: cols' =>
      if decide (c = c') then (c, dt) :: cols' else (c', dt') :: set_dtype c dt cols'
  end.

Definition set_cells (c : string) (vals : list cell)
    (l : list (nat * gmap string cell)) : list (nat * gmap string cell) :=
  zip_with (λ ir v, (ir.1, <[c := v]> ir.2)) l vals.

(** [df[c] = vals]: an existing column is overwritten in place, a new one is
    appended; [dt] is the dtype of [vals]. *)
Definition setitem (c : string) (dt : dtype) (vals : list cell) (df : DataFrame)
  : DataFrame :=
  {| columns := set_dtype c dt (columns df);
     rows := set_cells c vals (rows df) |}.

(** The same for an existing column whose dtype the new values keep. *)
Definition setitem_same (c : string) (vals : list cell) (df : DataFrame)
  : DataFrame :=
  {| columns := columns df; rows := set_cells c vals (rows df) |}.

Definition dtype_of (c : string) (df : DataFrame) : option dtype :=
  (list_to_map (columns df) : gmap string dtype) !! c.

Fixpoint mask_rows {A} (l : list A) (mask : list bool) : list A :=
  match l, mask with
  | x :: l', b :: mask' => if b then x :: mask_rows l' mask' else mask_rows l' mask'
  | _, _ => []
  end.

(** [df[mask]]: a new table with the rows where the mask is True; labels of
    the index are kept. *)
Definition getitem_mask (mask : list bool) (df : DataFrame) : DataFrame :=
  {| columns := columns df; rows := mask_rows (rows df) mask |}.

(** [Series.dt.year] and [Series.between(lo, hi)] (inclusive on both sides;
    a missing year compares False). *)
Definition dt_year (c : cell) : option Z :=
  match c with Timestamp y _ _ => Some y | _ => None end.

Definition between (lo hi : Z) (y : option Z) : bool :=
  match y with Some y => bool_decide (lo ≤ y) && bool_decide (y ≤ hi) | None => false end.

(** *** drop_duplicates *)

Definition same_row (cols : list string) (r r' : gmap string cell) : bool :=
  forallb (λ c, bool_decide (r !!! c = r' !!! c)) cols.

Fixpoint drop_dup_rows (cols : list string) (seen : list (gmap string cell))
    (l : list (nat * gmap string cell)) : list (nat * gmap string cell) :=
  match l with
  | [] => []
  | ir :: l' =>
      if existsb (same_row cols ir.2) seen then drop_dup_rows cols seen l'
      else ir :: drop_dup_rows cols (ir.2 :: seen) l'
  end.

(** [df.drop_duplicates()]: rows equal on every column to an earlier row go
    (keep='first'); missing values compare equal to each other. *)
Definition drop_duplicates (df : DataFrame) : DataFrame :=
  {| columns := columns df; rows := drop_dup_rows (names df) [] (rows df) |}.

(** *** median, quantile, mode *)

Definition numbers (vals : list cell) : list binary64 := omap to_float vals.

Definition binary64_le (x y : binary64) : Prop := fle (Some x) (Some y) = true.

Global Instance binary64_le_dec (x y : binary64) : Decision (binary64_le x y).
Proof. unfold binary64_le. apply _. Defined.

Definition sorted (xs : list binary64) : list binary64 := merge_sort binary64_le xs.

Definition nth_float (xs : list binary64) (i : nat) : float64 := Some (nth i xs Zero).

(** [Series.median()] (skipna): NaN when there is no value; the middle
    value, or the mean [(a + b) / 2] of the two middle values, the sum and
    the quotient each rounded. *)
Definition median (vals : list cell) : float64 :=
  let s := sorted (numbers vals) in
  let n := length s in
  match n with
  | O => None
  | _ =>
      if Nat.even n
      then fdiv (fadd (nth_float s (n / 2 - 1)) (nth_float s (n / 2))) (Some (nearest 2 1))
      else nth_float s (n / 2)
  end.

(** numpy's interpolation between two neighbours [a] and [b] at the
    fraction [t]: [a + (b - a) * t], and [b - (b - a) * (1 - t)] from
    [t = 0.5] on. *)
Definition lerp (a b t : float64) : float64 :=
  let diff_b_a := fsub b a in
  if fle (Some (nearest 1 2)) t
  then fsub b (fmul diff_b_a (fsub (Some (nearest 1 1)) t))
  else fadd a (fmul diff_b_a t).

(** [Series.quantile(q)], linear interpolation between the two order
    statistics around position (n-1)·q; NaN when there is no value.  The
    position and its fraction are exact for the quartiles. *)
Definition quantile (q : Qc) (vals : list cell) : float64 :=
  let s := sorted (numbers vals) in
  let n := length s in
  match n with
  | O => None
  | _ =>
      let h := (Q2Qc (inject_Z (Z.of_nat (n - 1))) * q)%Qc in
      let lo := Qfloor h in
      let frac := (h - Q2Qc (inject_Z lo))%Qc in
      let a := nth_float s (Z.to_nat lo) in
      let b := nth_float s (Nat.min (Z.to_nat lo + 1) (n - 1)) in
      lerp a b (Some (nearest (Qnum frac) (Qden frac)))
  end.

(** Order used to sort the modes: within one kind of value. *)
Definition cell_ltb (a b : cell) : bool :=
  match a, b with
  | Str s, Str t => String.ltb s t
  | Num x, Num y => flt (Some x) (Some y)
  | Timestamp y m d, Timestamp y' m' d' =>
      bool_decide (y < y' ∨ (y = y' ∧ (m < m' ∨ (m = m' ∧ d < d'))))
  | _, _ => false
  end.

Definition count_cell (v : cell) (vals : list cell) : nat :=
  length (filter (λ c, c = v) vals).

(** [Series.mode()] as far as its first element goes: the most frequent
    non-missing value, the smallest one on a tie; no element when every
    value is missing. *)
Definition mode0 (vals : list cell) : option cell :=
  let present := filter (λ c, c ≠ NA) vals in
  foldl (λ best v,
           match best with
           | None => Some v
           | Some b =>
               let nv := count_cell v present in
               let nb := count_cell b present in
               if bool_decide (nb < nv)%nat
                  || (bool_decide (nb = nv) && cell_ltb v b)
               then Some v else Some b
           end) None present.

(** ** What pandas decides: parsing and text case *)

Class Pandas := {
  (** [pd.to_datetime] on one non-missing element of a column (the column
      is given too: the format is inferred from it); [None] when the
      element does not convert. *)
  parse_datetime : list cell → cell → option (Z * Z * Z);
  (** [pd.to_numeric] on one non-missing element. *)
  parse_numeric : cell → float64;
  (** [str.strip] and [str.title]. *)
  str_strip : string → string;
  str_title : string → string
}.

(** [pd.to_datetime(col, errors='coerce')], element by element. *)
Definition to_datetime_coerce {pd : Pandas} (col : list cell) (c : cell) : cell :=
  match c with
  | NA => NA
  | _ =>
      match parse_datetime col c with
      | Some (y, m, d) => Timestamp y m d
      | None => NA
      end
  end.

(** [pd.to_datetime(col)] (errors='raise'): no result when an element does
    not convert. *)
Definition to_datetime_raise {pd : Pandas} (col : list cell) : option (list cell) :=
  mapM (λ c, match c with
             | NA => Some NA
             | _ =>
                 match parse_datetime col c with
                 | Some (y, m, d) => Some (Timestamp y m d)
                 | None => None
                 end
             end) col.

(** [pd.to_numeric(col, errors='coerce')], element by element. *)
Definition to_numeric_coerce {pd : Pandas} (c : cell) : cell :=
  match c with
  | NA => NA
  | _ => of_float (parse_numeric c)
  end.

(** [Series.str] is refused (AttributeError) unless the column is of dtype
    object and is not made of numbers only or of dates only. *)
Definition str_accessor_ok (dt : dtype) (vals : list cell) : bool :=
  let present := filter (λ c, c ≠ NA) vals in
  bool_decide (dt = object)
  && (bool_decide (present = [])
      || negb (forallb (λ c, match c with Num _ => true | _ => false end) present
               || forallb (λ c, match c with Timestamp _ _ _ => true | _ => false end)
                    present)).

(** [Series.str.strip().str.title()] on one element: a missing value for
    what is not a string. *)
Definition strip_title {pd : Pandas} (c : cell) : cell :=
  match c with
  | Str s => Str (str_title (str_strip s))
  | _ => NA
  end.

(** [Series.map(d)] on one element: a missing value for what is not a key. *)
Definition map_dict (d : gmap string string) (c : cell) : cell :=
  match c with
  | Str s => match d !! s with Some v => Str v | None => NA end
  | _ => NA
  end.

(** [s.fillna(other)] with a Series: position by position. *)
Definition fillna_with (vals other : list cell) : list cell :=
  zip_with (λ v o, fillna o v) vals other.

(** [df.to_csv(path, index=False)]: the header line, then one line per row. *)
Definition csv_lines (df : DataFrame) : list (list cell) :=
  (Str <$> names df) :: ((λ ir, (λ c, ir.2 !!! c) <$> names df) <$> rows df).

(** Decimal digits of an integer. *)
Definition digit_char (d : Z) : ascii := ascii_of_nat (48 + Z.to_nat d).

Fixpoint digits_fuel (fuel : nat) (n : Z) (acc : string) : string :=
  match fuel with
  | O => acc
  | S fuel' =>
      let acc' := String (digit_char (n mod 10)) acc in
      if decide (n / 10 = 0) then acc' else digits_fuel fuel' (n / 10) acc'
  end.

Definition str_of_Z (n : Z) : string :=
  if decide (n < 0)
  then String "-"%char (digits_fuel (Z.to_nat (Z.log2 (- n)) + 1) (- n) EmptyString)
  else digits_fuel (Z.to_nat (Z.log2 n) + 1) n EmptyString.

(** [Series.dt.year.astype(str)]: the years are integers when every date is
    set ('2024'), and floats as soon as one is missing ('2024.0', 'nan'). *)
Definition year_strs (dates : list cell) : list cell :=
  let as_float := existsb isna dates in
  (λ c, match dt_year c with
        | Some y => Str (if as_float then str_of_Z y +:+ ".0" else str_of_Z y)
        | None => Str "nan"
        end) <$> dates.

(** ** The store and the monad *)

Inductive pykey := KStr (s : string) | KInt (z : Z).

Inductive exn :=
  | KeyError (k : pykey)
  | RuntimeError (status : Z)   (* f"API request failed: {status}" *)
  | AttributeError
  | ValueError
  | JSONDecodeError.

Inductive result (A : Type) :=
  | Raise (e : exn)
  | Return (a : A).
Arguments Raise {A} e.
Arguments Return {A} a.

(** Arguments of one plotly express call, and the figure it builds. *)
Record px_call := mk_px {
  px_kind : string;
  px_x : string;
  px_y : string;
  px_size : option string;
  px_color : option string;
  px_title : string
}.

Record Figure := mkFigure {
  fig_call : px_call;
  fig_data : DataFrame;
  fig_tickangle : option Z
}.

Inductive file :=
  | Text (lines : list (list cell))
  | Html (fig : Figure).

(** The HTTP response, as far as [fetch_petroleum_data] looks into it:
    [.json().get("response", {}).get("data", [])].  What stands under
    "data" is absent, null, an array of flat records, a boolean, a string,
    a number, or an object of scalars. *)
Inductive data_field :=
  | DataAbsent
  | DataNull
  | DataRows (records : list (list (string * cell)))
  | DataBool (b : bool)
  | DataString (s : string)
  | DataNumber (x : float64)
  | DataObject (fields : list (string * cell)).
Inductive response_field :=
  | ResponseAbsent
  | ResponseNotDict
  | ResponseDict (data : data_field).
Inductive body :=
  | NotJson
  | JsonNotDict
  | JsonDict (response : response_field).

Record Response := mkResponse { status_code : Z; content : body }.

Record Request := mkRequest {
  url : string;
  params : list (string * list string)
}.

Abbreviation ref := nat (only parsing).

Record world := mkWorld {
  heap : list DataFrame;          (* the DataFrame objects, by reference *)
  dirs : gset string;
  files : gmap string file;
  stdout : list string;
  environ : gmap string string;
  network : Request → Response
}.

Definition with_heap (h : list DataFrame) (w : world) : world :=
  mkWorld h (dirs w) (files w) (stdout w) (environ w) (network w).
Definition with_dirs (d : gset string) (w : world) : world :=
  mkWorld (heap w) d (files w) (stdout w) (environ w) (network w).
Definition with_files (f : gmap string file) (w : world) : world :=
  mkWorld (heap w) (dirs w) f (stdout w) (environ w) (network w).
Definition with_stdout (o : list string) (w : world) : world :=
  mkWorld (heap w) (dirs w) (files w) o (environ w) (network w).

Definition M (A : Type) : Type := world → result A * world.

Definition ret {A} (a : A) : M A := λ w, (Return a, w).
Definition raise {A} (e : exn) : M A := λ w, (Raise e, w).
Definition bind {A B} (m : M A) (k : A → M B) : M B :=
  λ w, match m w with
       | (Return a, w') => k a w'
       | (Raise e, w') => (Raise e, w')
       end.

Declare Scope py_scope.
Delimit Scope py_scope with py.
Notation "'let!' x ':=' m 'in' k" := (bind m (λ x, k))
  (at level 10, x name, m at level 100, k at level 200) : py_scope.
Notation "m ';;;' k" := (bind m (λ _, k))
  (at level 100, k at level 200, right associativity) : py_scope.
Local Open Scope py_scope.

Fixpoint for_each {A} (l : list A) (body : A → M unit) : M unit :=
  match l with
  | [] => ret tt
  | x :: l' => body x ;;; for_each l' body
  end.

(** A fresh object. *)
Definition new (df : DataFrame) : M ref :=
  λ w, (Return (length (heap w)), with_heap (heap w ++ [df]) w).

(** The object behind [r].  References come from [new] or name an object of
    the initial world, so the lookup finds one. *)
Definition deref (r : ref) : M DataFrame :=
  λ w, (Return (heap w !!! r), w).

(** In-place update of the object behind [r]. *)
Definition update (r : ref) (f : DataFrame → DataFrame) : M unit :=
  λ w, (Return tt, with_heap (alter f r (heap w)) w).

(** [df[c]] *)
Definition getitem (r : ref) (c : string) : M (list cell) :=
  let! df := deref r in
  if has_column c df then ret (column c df) else raise (KeyError (KStr c)).

(** [os.makedirs(.., exist_ok=True)], [Path.mkdir(parents=True, exist_ok=True)].
    The file system is taken to work: this step and the writing of a file
    raise no OSError. *)
Definition mkdir (ds : list string) : M unit :=
  λ w, (Return tt, with_dirs (list_to_set ds ∪ dirs w) w).

Definition write_file (path : string) (f : file) : M unit :=
  λ w, (Return tt, with_files (<[path := f]> (files w)) w).

Definition to_csv (r : ref) (path : string) : M unit :=
  let! df := deref r in write_file path (Text (csv_lines df)).

(** [Path.touch()]: creates an empty file, leaves an existing one as it is. *)
Definition touch (path : string) : M unit :=
  λ w, match files w !! path with
       | Some _ => (Return tt, w)
       | None => (Return tt, with_files (<[path := Text []]> (files w)) w)
       end.

Definition print (line : string) : M unit :=
  λ w, (Return tt, with_stdout (stdout w ++ [line]) w).

Definition getenv (k fallback : string) : M string :=
  λ w, (Return (default fallback (environ w !! k)), w).

(** [requests.get]: the service answers every request; a request that gets
    no answer (no connection, a timeout) is not part of the world. *)
Definition requests_get (rq : Request) : M Response :=
  λ w, (Return (network w rq), w).

(** ** scripts/clean_data.py *)

Local Open Scope string_scope.
Local Open Scope list_scope.

Definition area_map : gmap string string :=
  list_to_map
    [ ("NUS", "United States");
      ("R10", "PADD 1 (East Coast)");
      ("R1X", "PADD 1A (New England)");
      ("R1Y", "PADD 1B (Central Atlantic)");
      ("R20", "PADD 2 (Midwest)");
      ("R30", "PADD 3 (Gulf Coast)");
      ("R40", "PADD 4 (Rocky Mountain)");
      ("R50", "PADD 5 (West Coast)");
      ("R5XCA", "PADD 5 (Except California)");
      ("SCA", "California") ].

Definition product_map : gmap string string :=
  list_to_map
    [ ("EPD2D", "No 2 Diesel");
      ("EPD2DXL0", "Ultra-Low Sulfur Diesel (0–15 ppm)");
      ("EPM0", "Total Gasoline");
      ("EPMR", "Regular Gasoline");
      ("EPMP", "Premium Gasoline");
      ("EPM0R", "Reformulated Motor Gasoline") ].

(** [df.select_dtypes(include=[np.number]).columns] and its complement. *)
Definition select_number (df : DataFrame) : list string :=
  (filter (λ cd, cd.2 = number) (columns df)).*1.
Definition select_exclude_number (df : DataFrame) : list string :=
  (filter (λ cd, cd.2 ≠ number) (columns df)).*1.

(** [df[cols] = df[cols].fillna(df[cols].median())]: each column of [cols]
    has its missing entries replaced by its own median; a NaN median fills
    nothing. *)
Definition fillna_median (cols : list string) (df : DataFrame) : DataFrame :=
  foldr (λ c acc,
           setitem_same c (fillna (of_float (median (column c df))) <$> column c df) acc)
        df cols.

(** The mask of the 1.5·IQR rule, lines 99-101. *)
Definition Q1_of (value : list cell) : float64 := quantile (Q2Qc (1 # 4)) value.
Definition Q3_of (value : list cell) : float64 := quantile (Q2Qc (3 # 4)) value.
Definition lower_bound (value : list cell) : float64 :=
  let Q1 := Q1_of value in
  let Q3 := Q3_of value in
  let IQR := fsub Q3 Q1 in
  fsub Q1 (fmul (Some (nearest 3 2)) IQR).
Definition upper_bound (value : list cell) : float64 :=
  let Q1 := Q1_of value in
  let Q3 := Q3_of value in
  let IQR := fsub Q3 Q1 in
  fadd Q3 (fmul (Some (nearest 3 2)) IQR).
Definition within_iqr (value : list cell) (v : cell) : bool :=
  fge (to_float v) (lower_bound value) && fle (to_float v) (upper_bound value).

Definition processed_csv : string := "data/processed/petroleum_clean.csv".

Section clean_data.
Context {pd : Pandas}.

(** The function, block by block under the comment that heads each block
    in the source. *)

(* Convert types (lines 79-81).  Line 79 writes into the caller's table;
   line 80 rebinds [df] to a new table. *)
Definition convert_types (df : ref) : M ref :=
  let! period := getitem df "period" in
  update df (setitem "period" datetime64 (to_datetime_coerce period <$> period)) ;;;
  let! period := getitem df "period" in
  let! frame := deref df in
  let! df := new (getitem_mask ((λ c, between 1990 2025 (dt_year c)) <$> period) frame) in
  let! value := getitem df "value" in
  update df (setitem "value" number (to_numeric_coerce <$> value)) ;;;
  ret df.

(* Drop duplicates (line 84) *)
Definition drop_duplicates_inplace (df : ref) : M unit :=
  update df drop_duplicates.

(* Fill missing values (lines 87-91) *)
Definition fill_missing_values (df : ref) : M unit :=
  let! frame := deref df in
  update df (fillna_median (select_number frame)) ;;;
  let! frame := deref df in
  for_each (select_exclude_number frame) (λ col,
    let! s := getitem df col in
    match mode0 s with
    | None => raise (KeyError (KInt 0))
    | Some m => update df (setitem_same col (fillna m <$> s))
    end).

(* Format text columns (lines 94-96) *)
Definition format_text_columns (df : ref) : M unit :=
  for_each ["area-name"; "product-name"; "process-name"] (λ col,
    let! frame := deref df in
    if has_column col frame then
      let! s := getitem df col in
      if str_accessor_ok (default object (dtype_of col frame)) s
      then update df (setitem col object (strip_title <$> s))
      else raise AttributeError
    else ret tt).

(* Remove outliers (lines 99-101): a new table again. *)
Definition remove_outliers (df : ref) : M ref :=
  let! value := getitem df "value" in
  let! frame := deref df in
  new (getitem_mask (within_iqr value <$> value) frame).

(* Mapping (lines 104-127) *)
Definition mapping (df : ref) : M unit :=
  let! frame := deref df in
  (if has_column "product" frame then
     let! product := getitem df "product" in
     update df (setitem_same "product"
                  (fillna_with (map_dict product_map <$> product) product))
   else ret tt) ;;;
  let! frame := deref df in
  (if has_column "duoarea" frame then
     let! duoarea := getitem df "duoarea" in
     update df (setitem "duoarea" object
                  (fillna (Str "Unknown") <$> (map_dict area_map <$> duoarea)))
   else ret tt).

(* Ensure data directory exists, export cleaned data to CSV (lines 130-139) *)
Definition export_csv (df : ref) : M unit :=
  mkdir ["data"; "data/processed"] ;;;
  to_csv df processed_csv ;;;
  let! frame := deref df in
  (if negb (empty frame) then to_csv df processed_csv else touch processed_csv).

Definition clean_petroleum_data (df : ref) : M ref :=
  let! df := convert_types df in
  drop_duplicates_inplace df ;;;
  fill_missing_values df ;;;
  format_text_columns df ;;;
  let! df := remove_outliers df in
  mapping df ;;;
  export_csv df ;;;
  ret df.

(** *** The tables the function goes through, as functions of the
    caller's table *)

(** The caller's table after line 79. *)
Definition converted (d : DataFrame) : DataFrame :=
  setitem "period" datetime64
    (to_datetime_coerce (column "period" d) <$> column "period" d) d.

(** The table of line 80. *)
Definition in_range (d : DataFrame) : DataFrame :=
  getitem_mask ((λ c, between 1990 2025 (dt_year c)) <$> column "period" d) d.

(** Line 81. *)
Definition numeric_value (d : DataFrame) : DataFrame :=
  setitem "value" number (to_numeric_coerce <$> column "value" d) d.

(** The loop of lines 90-91. *)
Fixpoint fill_modes (cols : list string) (d : DataFrame) : result DataFrame :=
  match cols with
  | [] => Return d
  | col :: cols' =>
      if has_column col d then
        match mode0 (column col d) with
        | None => Raise (KeyError (KInt 0))
        | Some m => fill_modes cols' (setitem_same col (fillna m <$> column col d) d)
        end
      else Raise (KeyError (KStr col))
  end.

(** The loop of lines 94-96. *)
Fixpoint format_text (cols : list string) (d : DataFrame) : result DataFrame :=
  match cols with
  | [] => Return d
  | col :: cols' =>
      if has_column col d then
        if str_accessor_ok (default object (dtype_of col d)) (column col d)
        then format_text cols' (setitem col object (strip_title <$> column col d) d)
        else Raise AttributeError
      else format_text cols' d
  end.

(** The working table: what lines 79-96 leave for the outlier filter. *)
Definition working_table (d : DataFrame) : result DataFrame :=
  if has_column "period" d then
    let d1 := in_range (converted d) in
    if has_column "value" d1 then
      let d2 := drop_duplicates (numeric_value d1) in
      let d3 := fillna_median (select_number d2) d2 in
      match fill_modes (select_exclude_number d3) d3 with
      | Return d4 => format_text ["area-name"; "product-name"; "process-name"] d4
      | Raise e => Raise e
      end
    else Raise (KeyError (KStr "value"))
  else Raise (KeyError (KStr "period")).

(** Line 101. *)
Definition without_outliers (d : DataFrame) : DataFrame :=
  getitem_mask (within_iqr (column "value" d) <$> column "value" d) d.

(** Lines 124-127. *)
Definition map_product (d : DataFrame) : DataFrame :=
  if has_column "product" d then
    setitem_same "product"
      (fillna_with (map_dict product_map <$> column "product" d) (column "product" d)) d
  else d.
Definition map_duoarea (d : DataFrame) : DataFrame :=
  if has_column "duoarea" d then
    setitem "duoarea" object
      (fillna (Str "Unknown") <$> (map_dict area_map <$> column "duoarea" d)) d
  else d.

(** The returned table. *)
Definition cleaned (d : DataFrame) : result DataFrame :=
  match working_table d with
  | Return ws =>
      if has_column "value" ws
      then Return (map_duoarea (map_product (without_outliers ws)))
      else Raise (KeyError (KStr "value"))
  | Raise e => Raise e
  end.

End clean_data.

(** ** scripts/fetch_data.py *)

Definition fetch_request (api_key : string) : Request :=
  {| url := "https://api.eia.gov/v2/petroleum/pri/gnd/data/";
     params :=
       [ ("api_key", [api_key]);
         ("frequency", ["annual"]);
         ("data[0]", ["value"]);
         ("facets[product][]", ["EPD2D"; "EPD2DXL0"; "EPM0"; "EPM0R"; "EPMP"; "EPMR"]);
         ("facets[duoarea][]",
           ["NUS"; "R10"; "R1X"; "R1Y"; "R20"; "R30"; "R40"; "R50"; "R5XCA"; "SCA"]);
         ("facets[process][]", ["PTE"]);
         ("start", ["2000"]);
         ("end", ["2024"]);
         ("sort[0][column]", ["period"]);
         ("sort[0][direction]", ["asc"]);
         ("offset", ["0"]);
         ("length", ["5000"]) ] |}.

(** The Python value of [data]. *)
Inductive pydata :=
  | PyNone
  | PyList (records : list (list (string * cell)))
  | PyBool (b : bool)
  | PyStr (s : string)
  | PyFloat (x : float64)
  | PyDict (fields : list (string * cell)).

(** [response.json().get("response", {}).get("data", [])]. *)
Definition json_data (b : body) : result pydata :=
  match b with
  | NotJson => Raise JSONDecodeError
  | JsonNotDict => Raise AttributeError
  | JsonDict ResponseAbsent => Return (PyList [])
  | JsonDict ResponseNotDict => Raise AttributeError
  | JsonDict (ResponseDict DataAbsent) => Return (PyList [])
  | JsonDict (ResponseDict DataNull) => Return PyNone
  | JsonDict (ResponseDict (DataRows records)) => Return (PyList records)
  | JsonDict (ResponseDict (DataBool b)) => Return (PyBool b)
  | JsonDict (ResponseDict (DataString s)) => Return (PyStr s)
  | JsonDict (ResponseDict (DataNumber x)) => Return (PyFloat x)
  | JsonDict (ResponseDict (DataObject fields)) => Return (PyDict fields)
  end.

(** Truth value of [data]. *)
Definition truthy (data : pydata) : bool :=
  match data with
  | PyNone => false
  | PyList records => negb (bool_decide (records = []))
  | PyBool b => b
  | PyStr s => negb (bool_decide (s = EmptyString))
  | PyFloat x => negb (bool_decide (x = Some Zero))
  | PyDict fields => negb (bool_decide (fields = []))
  end.

(** Keys in order of first appearance. *)
Definition record_keys (records : list (list (string * cell))) : list string :=
  reverse (remove_dups (reverse (concat ((λ r, r.*1) <$> records)))).

(** The dtype pandas infers for a column of JSON scalars. *)
Definition infer_dtype (vals : list cell) : dtype :=
  if forallb (λ c, match c with Num _ | NA => true | _ => false end) vals
     && existsb (λ c, match c with Num _ => true | _ => false end) vals
  then number else object.

(** [pd.DataFrame(data)] for a list of flat records: a RangeIndex, a column
    per key, a missing value where a record lacks the key (the last binding
    of a repeated key wins, as in the dict). *)
Definition DataFrame_of_records (data : option (list (list (string * cell))))
  : DataFrame :=
  let records := default [] data in
  let rs := imap (λ i r, (i, (list_to_map (reverse r) : gmap string cell))) records in
  {| columns := (λ c, (c, infer_dtype ((λ ir, ir.2 !!! c) <$> rs))) <$> record_keys records;
     rows := rs |}.

(** [pd.DataFrame(data)]: a boolean, a string or a number is refused
    ("DataFrame constructor not properly called!"), and so is an object of
    scalars ("If using all scalar values, you must pass an index"); the
    empty object gives the empty table. *)
Definition DataFrame_of (data : pydata) : result DataFrame :=
  match data with
  | PyNone => Return (DataFrame_of_records None)
  | PyList records => Return (DataFrame_of_records (Some records))
  | PyBool _ | PyStr _ | PyFloat _ => Raise ValueError
  | PyDict [] => Return DataFrame_empty
  | PyDict (_ :: _) => Raise ValueError
  end.

Definition raw_csv : string := "data/raw/petroleum_raw.csv".

Definition fetch_petroleum_data (api_key : string) : M ref :=
  let! response := requests_get (fetch_request api_key) in
  if decide (status_code response ≠ 200)
  then raise (RuntimeError (status_code response))
  else
    let! data := (λ w, (json_data (content response), w)) in
    let! frame := (λ w, (DataFrame_of data, w)) in
    let! df := new frame in
    (* Ensure data directory exists *)
    mkdir ["data"; "data/raw"] ;;;
    (* Export raw data to CSV *)
    to_csv df raw_csv ;;;
    let! frame := deref df in
    (if negb (empty frame) then to_csv df raw_csv else touch raw_csv) ;;;
    if truthy data then ret df else new DataFrame_empty.

(** ** scripts/visualize_plotly.py *)

Class Plotly := {
  (** What [px.scatter], [px.line] and [px.bar] raise for a table and
      arguments they refuse; [None] when the figure is built. *)
  px_validate : px_call → DataFrame → option exn
}.

Definition update_xaxes (tickangle : Z) (fig : Figure) : Figure :=
  mkFigure (fig_call fig) (fig_data fig) (Some tickangle).

Definition write_html (path : string) (fig : Figure) : M unit :=
  write_file path (Html fig).

Definition isin (l : list string) (c : cell) : bool :=
  match c with Str s => bool_decide (s ∈ l) | _ => false end.

(** The five charts. *)
Definition scatter_prices : px_call :=
  mk_px "scatter" "value" "product-name" (Some "value") (Some "value")
    "Fuel Product Prices ($/Gallon)".
Definition price_trend : px_call :=
  mk_px "line" "period" "value" None (Some "product-name")
    "Prices ($/Gallon) Trend Over the Years".
Definition regional_cost : px_call :=
  mk_px "bar" "area-name" "value" None (Some "product-name")
    "Regional Cost by Area and Product (2024–2025)".
Definition fuel_type_comparison : px_call :=
  mk_px "bar" "product-name" "value" None (Some "period")
    "Fuel Type Cost by Area and Time (2024–2025)".
Definition national_vs_states : px_call :=
  mk_px "line" "period" "value" None (Some "area-name")
    "U.S. National Trend vs States (Period)".

Section visualize_plotly.
Context {pd : Pandas} {plotly : Plotly}.

Definition px (call : px_call) (df : ref) : M Figure :=
  let! frame := deref df in
  match px_validate call frame with
  | Some e => raise e
  | None => ret (mkFigure call frame None)
  end.

Definition create_all_charts (df : ref) : M unit :=
  mkdir ["outputs"] ;;;
  (* Scatter plot *)
  let! fig1 := px scatter_prices df in
  write_html "outputs/scatter_prices.html" fig1 ;;;
  (* Line plot *)
  let! fig2 := px price_trend df in
  write_html "outputs/price_trend.html" (update_xaxes 60 fig2) ;;;
  (* Regional data filter *)
  let! period := getitem df "period" in
  let! dates := (match to_datetime_raise period with
                 | Some dates => ret dates
                 | None => raise ValueError
                 end) in
  update df (setitem "year" object (year_strs dates)) ;;;
  let! year := getitem df "year" in
  let! frame := deref df in
  let! regional_data := new (getitem_mask (isin ["2021"; "2024"; "2025"] <$> year) frame) in
  let! regional := deref regional_data in
  (if empty regional then
     print "⚠️ No regional data found for 2021, 2024, or 2025."
   else
     (* Bar plot 1 *)
     let! fig3 := px regional_cost regional_data in
     write_html "outputs/regional_cost.html" (update_xaxes 60 fig3) ;;;
     (* Bar plot 2 *)
     let! fig4 := px fuel_type_comparison regional_data in
     write_html "outputs/fuel_type_comparison.html" (update_xaxes 45 fig4)) ;;;
  (* National vs States *)
  let! fig5 := px national_vs_states df in
  write_html "outputs/national_vs_states.html" (update_xaxes 60 fig5).

End visualize_plotly.

(** ** main.py *)

(** The five functions of scripts/visualize_seaborn.py, which draw with
    seaborn and save images; they are called between the cleaning and the
    interactive charts.  [set_plot_style()] and [plt.show()] only touch the
    state of matplotlib, which the world does not hold. *)
Class Seaborn := {
  plot_scatter : ref → M unit;
  plot_price_trend : ref → M unit;
  plot_regional_cost : ref → M unit;
  plot_fuel_type_comparison : ref → M unit;
  plot_us_trend_vs_states : ref → M unit
}.

Section main.
Context {pd : Pandas} {plotly : Plotly} {sns : Seaborn}.

Definition main : M unit :=
  (* Fetch *)
  let! API_KEY := getenv "EIA_API_KEY" "eg3hiIakLLsprBiSiTVP4C1Wz0NeLYPLISKYe5ap" in
  let! df := fetch_petroleum_data API_KEY in
  (* Save raw *)
  mkdir ["data"; "data/raw"] ;;;
  to_csv df raw_csv ;;;
  (* Clean *)
  let! df := clean_petroleum_data df in
  (* Save processed *)
  mkdir ["data"; "data/processed"] ;;;
  to_csv df processed_csv ;;;
  (* Visualize (Seaborn) *)
  plot_scatter df ;;;
  plot_price_trend df ;;;
  plot_regional_cost df ;;;
  plot_fuel_type_comparison df ;;;
  plot_us_trend_vs_states df ;;;
  (* Visualize (Plotly) *)
  create_all_charts df.

End main.

(** *** What running main.py executes before [main]

    Importing a module runs its top-level statements: scripts/fetch_data.py,
    scripts/clean_data.py and scripts/visualize_seaborn.py each create
    PLOT_DIR ([os.makedirs] makes the parents too);
    scripts/visualize_seaborn.py ends with a [print] at module level (line
    216), and scripts/visualize_plotly.py ends with a [print] that is not
    inside [create_all_charts] (line 115). *)

(** [os.path.join("outputs", "plots")], with the separator of POSIX. *)
Definition PLOT_DIR : string := "outputs/plots".

Definition import_fetch_data : M unit := mkdir ["outputs"; PLOT_DIR].
Definition import_clean_data : M unit := mkdir ["outputs"; PLOT_DIR].
Definition import_visualize_seaborn : M unit :=
  mkdir ["outputs"; PLOT_DIR] ;;;
  print (String.append "✅ All Seaborn plots saved in '" (String.append PLOT_DIR "'")).
Definition import_visualize_plotly : M unit :=
  print "✅ All Plotly plots saved in 'outputs'".

(** [python main.py]: the imports of lines 30-42 in their order, then the
    body under [if __name__ == "__main__"]. *)
Definition main_py {pd : Pandas} {plotly : Plotly} {sns : Seaborn} : M unit :=
  import_fetch_data ;;;
  import_clean_data ;;;
  import_visualize_seaborn ;;;
  import_visualize_plotly ;;;
  main.

(** ** Instances used to run the pipeline on concrete tables *)

Definition digit_of (a : ascii) : option Z :=
  let n := Z.of_nat (nat_of_ascii a) in
  if decide (48 ≤ n ≤ 57)%Z then Some (n - 48)%Z else None.

Fixpoint parse_digits (s : string) (acc : Z) : option Z :=
  match s with
  | EmptyString => Some acc
  | String a s' =>
      match digit_of a with
      | Some d => parse_digits s' (10 * acc + d)%Z
      | None => None
      end
  end.

(** A year string "YYYY" within the range of a Timestamp converts to the
    first of January of that year. *)
Definition parse_year (s : string) : option (Z * Z * Z) :=
  if decide (String.length s = 4%nat) then
    match parse_digits s 0 with
    | Some y => if decide (1678 ≤ y ≤ 2262)%Z then Some (y, 1, 1)%Z else None
    | None => None
    end
  else None.

Fixpoint split_dot (s : string) : string * option string :=
  match s with
  | EmptyString => (EmptyString, None)
  | String a s' =>
      if decide (a = "."%char) then (EmptyString, Some s')
      else let '(i, f) := split_dot s' in (String a i, f)
  end.

(** A plain decimal literal: sign, digits, optional fraction; the nearest
    float64, NaN when the string is no such literal. *)
Definition parse_unsigned (s : string) : float64 :=
  let '(i, f) := split_dot s in
  let f := default EmptyString f in
  if decide (String.length i + String.length f = 0)%nat then None
  else
    match parse_digits i 0, parse_digits f 0 with
    | Some a, Some b =>
        let scale := (10 ^ Z.of_nat (String.length f))%Z in
        Some (nearest (a * scale + b) (Z.to_pos scale))
    | _, _ => None
    end.

Definition parse_decimal (s : string) : float64 :=
  match s with
  | String "-" s' => fopp (parse_unsigned s')
  | String "+" s' => parse_unsigned s'
  | _ => parse_unsigned s
  end.

Definition is_space (a : ascii) : bool :=
  let n := nat_of_ascii a in
  bool_decide (n = 32 ∨ 9 ≤ n ≤ 13)%nat.

Fixpoint lstrip (s : string) : string :=
  match s with
  | String a s' => if is_space a then lstrip s' else s
  | EmptyString => EmptyString
  end.

Fixpoint rstrip (s : string) : string :=
  match s with
  | EmptyString => EmptyString
  | String a s' =>
      match rstrip s' with
      | EmptyString => if is_space a then EmptyString else String a EmptyString
      | t => String a t
      end
  end.

Definition is_upper (a : ascii) : bool :=
  let n := nat_of_ascii a in bool_decide (65 ≤ n ≤ 90)%nat.
Definition is_lower (a : ascii) : bool :=
  let n := nat_of_ascii a in bool_decide (97 ≤ n ≤ 122)%nat.
Definition to_upper (a : ascii) : ascii :=
  if is_lower a then ascii_of_nat (nat_of_ascii a - 32) else a.
Definition to_lower (a : ascii) : ascii :=
  if is_upper a then ascii_of_nat (nat_of_ascii a + 32) else a.

(** Title case: a letter is upper-cased after a character that is not a
    letter and lower-cased after a letter. *)
Fixpoint title_from (prev_cased : bool) (s : string) : string :=
  match s with
  | EmptyString => EmptyString
  | String a s' =>
      String (if prev_cased then to_lower a else to_upper a)
             (title_from (is_upper a || is_lower a) s')
  end.

(** pandas on the values of the annual series: periods "YYYY", prices as
    numbers or decimal literals, ASCII labels. *)
Definition pandas_ascii : Pandas :=
  {| parse_datetime := λ _ c,
       match c with
       | Timestamp y m d => Some (y, m, d)
       | Str s => parse_year s
       | _ => None
       end;
     parse_numeric := λ c,
       match c with
       | Num x => Some x
       | Str s => parse_decimal s
       | _ => None
       end;
     str_strip := λ s, rstrip (lstrip s);
     str_title := title_from false |}.

(** plotly refusing a call that names a column the table does not have. *)
Definition px_columns (call : px_call) : list string :=
  [px_x call; px_y call] ++ option_list (px_size call) ++ option_list (px_color call).

Definition plotly_columns : Plotly :=
  {| px_validate := λ call df,
       if forallb (λ c, has_column c df) (px_columns call) then None else Some ValueError |}.

(** Static charts that draw nothing: enough to run [main] where it stops
    before the charts. *)
Definition seaborn_idle : Seaborn :=
  {| plot_scatter := λ _, ret tt;
     plot_price_trend := λ _, ret tt;
     plot_regional_cost := λ _, ret tt;
     plot_fuel_type_comparison := λ _, ret tt;
     plot_us_trend_vs_states := λ _, ret tt |}.

(** ** Concrete tables and worlds *)

(** One record of the data array, with the four fields the cleaner reads. *)
Definition raw_record (period value product duoarea : string) : list (string * cell) :=
  [("period", Str period); ("value", Str value);
   ("product", Str product); ("duoarea", Str duoarea)].

(** The table [pd.DataFrame] builds from such records. *)
Definition table_of (records : list (list (string * cell))) : DataFrame :=
  DataFrame_of_records (Some records).

(** A world with the given objects, no file, no environment variable, and a
    service that answers [response] to every request. *)
Definition world_of (objects : list DataFrame) (response : Response) : world :=
  mkWorld objects ∅ ∅ [] ∅ (λ _, response).

Definition unavailable : Response := mkResponse 503 NotJson.

(** The scenario of the specification. *)
Definition scenario_input : DataFrame :=
  table_of [raw_record "2025" "3.459" "EPMR" "NUS"].

Definition scenario_output : DataFrame :=
  {| columns := [("period", datetime64); ("value", number);
                 ("product", object); ("duoarea", object)];
     rows := [(0%nat,
               list_to_map
                 [("period", Timestamp 2025 1 1);
                  ("value", Num (nearest 3459 1000));
                  ("product", Str "Regular Gasoline");
                  ("duoarea", Str "United States")])] |}.

(** Five prices, one of them far away. *)
Definition far_outlier_input : DataFrame :=
  table_of [raw_record "2020" "0" "EPMR" "NUS";
            raw_record "2021" "1" "EPMR" "NUS";
            raw_record "2022" "2" "EPMR" "NUS";
            raw_record "2023" "8" "EPMR" "NUS";
            raw_record "2024" "100" "EPMR" "NUS"].

(** A year inside the range and a year outside. *)
Definition two_periods_input : DataFrame :=
  table_of [raw_record "2025" "3.459" "EPMR" "NUS";
            raw_record "1850" "3.459" "EPMR" "NUS"].

(** A table with a period column and no value column. *)
Definition period_only_input : DataFrame :=
  table_of [[("period", Str "2025"); ("product", Str "EPMR")]].

(** Two rows that differ in their region code only, neither code in the
    lookup table. *)
Definition unknown_regions_input : DataFrame :=
  table_of [raw_record "2020" "3.0" "EPMR" "R98";
            raw_record "2020" "3.0" "EPMR" "R99"].

(** The same row three times. *)
Definition repeated_row_input : DataFrame :=
  table_of [raw_record "2020" "3.0" "EPMR" "NUS";
            raw_record "2020" "3.0" "EPMR" "NUS";
            raw_record "2020" "3.0" "EPMR" "NUS"].

(** A row whose value is not a number. *)
Definition unparseable_value_input : DataFrame :=
  table_of [raw_record "2025" "abc" "EPMR" "NUS"].

(** The answer of the service when it has no row. *)
Definition no_rows : Response :=
  mkResponse 200 (JsonDict (ResponseDict (DataRows []))).

(** Two answers with a success status other than 200: 204 No Content, and
    203 Non-Authoritative Information with the envelope of no row. *)
Definition no_content : Response := mkResponse 204 NotJson.
Definition non_authoritative : Response :=
  mkResponse 203 (JsonDict (ResponseDict (DataRows []))).

(** An answer of status 200 whose "data" is a message instead of rows. *)
Definition message_for_data : Response :=
  mkResponse 200 (JsonDict (ResponseDict (DataString "no data"))).

(** A cleaned table with the columns the charts read. *)
Definition charts_input : DataFrame :=
  {| columns := [("period", datetime64); ("value", number);
                 ("product-name", object); ("area-name", object)];
     rows := [(0%nat,
               list_to_map
                 [("period", Timestamp 2024 1 1);
                  ("value", Num (nearest 3 1));
                  ("product-name", Str "Regular Gasoline");
                  ("area-name", Str "U.S.")])] |}.

(** A row of 1850 only: nothing passes the year filter. *)
Definition out_of_range_input : DataFrame :=
  table_of [raw_record "1850" "3.459" "EPMR" "NUS"].


(** A cleaned table of 2019 only, with the columns the charts read. *)
Definition charts_2019_input : DataFrame :=
  {| columns := [("period", datetime64); ("value", number);
                 ("product-name", object); ("area-name", object)];
     rows := [(0%nat,
               list_to_map
                 [("period", Timestamp 2019 1 1);
                  ("value", Num (nearest 3 1));
                  ("product-name", Str "Regular Gasoline");
                  ("area-name", Str "U.S.")])] |}.

(** The answer of the service with two rows. *)
Definition two_rows : Response :=
  mkResponse 200
    (JsonDict (ResponseDict (DataRows [raw_record "2020" "2.0" "EPMR" "NUS";
                                       raw_record "2021" "3.0" "EPMR" "NUS"]))).

Global Instance pykey_eq_dec : EqDecision pykey.
Proof. solve_decision. Defined.
Global Instance exn_eq_dec : EqDecision exn.
Proof. solve_decision. Defined.
Global Instance result_eq_dec {A} `{EqDecision A} : EqDecision (result A).
Proof. solve_decision. Defined.
Global Instance DataFrame_eq_dec : EqDecision DataFrame.
Proof. solve_decision. Defined.

(** ** Notions used in the statements *)

(** [p] only works on the object behind [r]: it reads and writes that
    table as [g] says, and leaves the rest of the world alone when it
    returns. *)
Definition acts {A} (r : ref) (p : M A) (g : DataFrame → result (A * DataFrame))
  : Prop :=
  ∀ w d, heap w !! r = Some d →
    match g d with
    | Return (a, d') => p w = (Return a, with_heap (<[r := d']> (heap w)) w)
    | Raise e => ∃ w', p w = (Raise e, w')
    end.

(** [p] never changes the objects already in the store (it may add new
    ones). *)
Definition extends_heap {A} (p : M A) : Prop :=
  ∀ w, ∃ ext, heap (p w).2 = heap w ++ ext.

(** The rows of [d'] are rows of [d] (same label) changed by [R]. *)
Definition rows_from (R : gmap string cell → gmap string cell → Prop)
    (d d' : DataFrame) : Prop :=
  ∀ i r', (i, r') ∈ rows d' → ∃ r, (i, r) ∈ rows d ∧ R r r'.

(** A cell of column [c] that is not missing stays as it is. *)
Definition keeps (c : string) (r r' : gmap string cell) : Prop :=
  r !!! c ≠ NA → r' !!! c = r !!! c.

(** Lines 79-81 on one row of the table [d]. *)
Definition typed_row {pd : Pandas} (d : DataFrame) (r : gmap string cell)
  : gmap string cell :=
  let r1 := <["period" := to_datetime_coerce (column "period" d) (r !!! "period")]> r in
  <["value" := to_numeric_coerce (r1 !!! "value")]> r1.

(** Two rows with the same cell in every column of [cols]. *)
Definition equal_on (cols : list string) (r r' : gmap string cell) : Prop :=
  ∀ c, c ∈ cols → r !!! c = r' !!! c.

(** The success statuses of HTTP are the statuses 2xx: this is the reading
    of "success status" the specification is compared with; the code itself
    only tests for 200. *)
Definition http_success (status : Z) : bool :=
  bool_decide (200 ≤ status < 300).

(** The world [clean_petroleum_data] returns in: the caller's table [d]
    with its period column converted, two new objects (the working table
    [ws] and the returned table [out]), the directory and the CSV file. *)
Definition clean_world {pd : Pandas} (w : world) (l : ref) (d ws out : DataFrame) : world :=
  with_files (<[processed_csv := Text (csv_lines out)]> (files w))
    (with_dirs (list_to_set ["data"; "data/processed"] ∪ dirs w)
       (with_heap (<[l := converted d]> (heap w) ++ [ws; out]) w)).

(** * Proofs *)

(** ** Lists, columns and rows *)

Lemma NoDup_fst_functional {A B} (l : list (A * B)) (x : A) (y1 y2 : B) :
  NoDup l.*1 → (x, y1) ∈ l → (x, y2) ∈ l → y1 = y2.
Proof.
  induction l as [|[a b] l IH]; cbn; intros Hnd H1 H2.
  - by apply elem_of_nil in H1.
  - apply NoDup_cons in Hnd as [Hnotin Hnd].
    apply elem_of_cons in H1 as [H1|H1], H2 as [H2|H2].
    + congruence.
    + injection H1 as -> ->. destruct Hnotin.
      apply list_elem_of_fmap. by exists (a, y2).
    + injection H2 as -> ->. destruct Hnotin.
      apply list_elem_of_fmap. by exists (a, y1).
    + by apply IH.
Qed.

Lemma mask_rows_fmap {A} (g : A → bool) (l : list A) :
  mask_rows l (g <$> l) = filter (λ x, g x = true) l.
Proof.
  induction l as [|x l IH]; [done|].
  cbn [fmap list_fmap mask_rows]. rewrite filter_cons.
  destruct (g x) eqn:Hg; case_decide; try congruence; by rewrite <- IH.
Qed.

Lemma set_cells_fmap (c : string) (g : nat * gmap string cell → cell)
    (l : list (nat * gmap string cell)) :
  set_cells c (g <$> l) l = (λ ir, (ir.1, <[c := g ir]> ir.2)) <$> l.
Proof.
  unfold set_cells. induction l as [|x l IH]; [done|].
  cbn. by rewrite IH.
Qed.

Lemma set_cells_column (c c' : string) (f : cell → cell) (d : DataFrame) :
  set_cells c (f <$> column c' d) (rows d)
  = (λ ir, (ir.1, <[c := f (ir.2 !!! c')]> ir.2)) <$> rows d.
Proof.
  unfold column. rewrite <- list_fmap_compose. by rewrite set_cells_fmap.
Qed.

Lemma names_set_dtype_in (c : string) (dt : dtype) (cols : list (string * dtype)) :
  c ∈ cols.*1 → (set_dtype c dt cols).*1 = cols.*1.
Proof.
  induction cols as [|[c' dt'] cols IH]; intros Hin.
  - by apply elem_of_nil in Hin.
  - cbn [set_dtype]. case_decide as Hc; [by subst|].
    cbn. f_equal. apply IH. cbn in Hin. apply elem_of_cons in Hin as [?|?]; [done|done].
Qed.

Lemma names_set_dtype_notin (c : string) (dt : dtype) (cols : list (string * dtype)) :
  c ∉ cols.*1 → (set_dtype c dt cols).*1 = cols.*1 ++ [c].
Proof.
  induction cols as [|[c' dt'] cols IH]; intros Hin; [done|].
  cbn [set_dtype]. cbn in Hin. apply not_elem_of_cons in Hin as [Hne Hin].
  case_decide; [done|]. cbn. f_equal. by apply IH.
Qed.

Lemma has_column_setitem (c c' : string) (dt : dtype) (vals : list cell) (d : DataFrame) :
  has_column c' d = true → has_column c' (setitem c dt vals d) = true.
Proof.
  unfold has_column, names. intros Hc%bool_decide_eq_true.
  apply bool_decide_eq_true. cbn.
  destruct (decide (c ∈ (columns d).*1)) as [Hin|Hin].
  - by rewrite names_set_dtype_in.
  - rewrite names_set_dtype_notin by done. apply elem_of_app. by left.
Qed.

Lemma has_column_setitem_eq (c : string) (dt : dtype) (vals : list cell) (d : DataFrame) :
  has_column c (setitem c dt vals d) = true.
Proof.
  unfold has_column, names. apply bool_decide_eq_true. cbn.
  destruct (decide (c ∈ (columns d).*1)) as [Hin|Hin].
  - by rewrite names_set_dtype_in.
  - rewrite names_set_dtype_notin by done. apply elem_of_app. right. by apply list_elem_of_singleton.
Qed.

(** ** The store *)

Lemma with_heap_id (w : world) : with_heap (heap w) w = w.
Proof. by destruct w. Qed.

Lemma with_heap_with_heap (h h' : list DataFrame) (w : world) :
  with_heap h (with_heap h' w) = with_heap h w.
Proof. done. Qed.

Lemma alter_heap (f : DataFrame → DataFrame) (h : list DataFrame) (r : ref) (d : DataFrame) :
  h !! r = Some d → alter f r h = <[r := f d]> h.
Proof.
  intros Hr. apply list_eq. intros j.
  pose proof (lookup_lt_Some _ _ _ Hr) as Hlt.
  destruct (decide (r = j)) as [<-|Hne].
  - by rewrite list_lookup_alter_eq, list_lookup_insert_eq, Hr.
  - by rewrite list_lookup_alter_ne, list_lookup_insert_ne.
Qed.

Lemma deref_run (w : world) (r : ref) (d : DataFrame) :
  heap w !! r = Some d → deref r w = (Return d, w).
Proof. intros Hr. unfold deref. by rewrite (list_lookup_total_correct _ _ _ Hr). Qed.

Lemma update_run (w : world) (r : ref) (d : DataFrame) (f : DataFrame → DataFrame) :
  heap w !! r = Some d →
  update r f w = (Return tt, with_heap (<[r := f d]> (heap w)) w).
Proof. intros Hr. unfold update. by rewrite (alter_heap _ _ _ _ Hr). Qed.

Lemma getitem_run (w : world) (r : ref) (d : DataFrame) (c : string) :
  heap w !! r = Some d →
  getitem r c w
  = if has_column c d then (Return (column c d), w) else (Raise (KeyError (KStr c)), w).
Proof.
  intros Hr. unfold getitem, bind. rewrite (deref_run _ _ _ Hr).
  by destruct (has_column c d).
Qed.

Lemma lookup_heap_insert (h : list DataFrame) (r : ref) (d d' : DataFrame) :
  h !! r = Some d → <[r := d']> h !! r = Some d'.
Proof. intros Hr. apply list_lookup_insert_eq. by eapply lookup_lt_Some. Qed.

(** ** Programs on one object *)

Lemma acts_ret {A} (r : ref) (a : A) : acts r (ret a) (λ d, Return (a, d)).
Proof.
  intros w d Hr. cbn. unfold ret. by rewrite list_insert_id, with_heap_id.
Qed.

Lemma acts_raise {A} (r : ref) (e : exn) : acts r (raise e : M A) (λ _, Raise e).
Proof. intros w d Hr. by exists w. Qed.

Lemma acts_deref (r : ref) : acts r (deref r) (λ d, Return (d, d)).
Proof.
  intros w d Hr. cbn. rewrite (deref_run _ _ _ Hr).
  by rewrite list_insert_id, with_heap_id.
Qed.

Lemma acts_update (r : ref) (f : DataFrame → DataFrame) :
  acts r (update r f) (λ d, Return (tt, f d)).
Proof. intros w d Hr. cbn. by apply update_run. Qed.

Lemma acts_getitem (r : ref) (c : string) :
  acts r (getitem r c)
    (λ d, if has_column c d then Return (column c d, d) else Raise (KeyError (KStr c))).
Proof.
  intros w d Hr. rewrite (getitem_run _ _ _ _ Hr).
  destruct (has_column c d); [|by eexists].
  by rewrite list_insert_id, with_heap_id.
Qed.

Lemma acts_bind {A B} (r : ref) (p : M A) (k : A → M B) g h :
  acts r p g → (∀ a, acts r (k a) (h a)) →
  acts r (bind p k)
    (λ d, match g d with Return (a, d') => h a d' | Raise e => Raise e end).
Proof.
  intros Hp Hk w d Hr. specialize (Hp w d Hr). unfold bind.
  destruct (g d) as [e|[a d']].
  - destruct Hp as [w' ->]. by eexists.
  - rewrite Hp.
    specialize (Hk a (with_heap (<[r:=d']> (heap w)) w) d').
    cbn [heap with_heap] in Hk. specialize (Hk (lookup_heap_insert _ _ _ _ Hr)).
    destruct (h a d') as [e|[b d'']]; [done|].
    rewrite Hk. by rewrite list_insert_insert_eq.
Qed.

Lemma acts_ext {A} (r : ref) (p : M A) g g' :
  acts r p g → (∀ d, g d = g' d) → acts r p g'.
Proof. intros Hp Hg w d Hr. rewrite <- Hg. by apply Hp. Qed.

Lemma acts_run {A} (r : ref) (p : M A) g (w : world) (d d' : DataFrame) (a : A) :
  acts r p g → heap w !! r = Some d → g d = Return (a, d') →
  p w = (Return a, with_heap (<[r := d']> (heap w)) w).
Proof. intros Hp Hr Hg. specialize (Hp w d Hr). by rewrite Hg in Hp. Qed.

Lemma acts_raises {A} (r : ref) (p : M A) g (w : world) (d : DataFrame) (e : exn) :
  acts r p g → heap w !! r = Some d → g d = Raise e → ∃ w', p w = (Raise e, w').
Proof. intros Hp Hr Hg. specialize (Hp w d Hr). by rewrite Hg in Hp. Qed.

Lemma acts_if {A} (r : ref) (b : bool) (p q : M A) g h :
  acts r p g → acts r q h →
  acts r (if b then p else q) (λ d, if b then g d else h d).
Proof. by destruct b. Qed.

Lemma acts_option {A B} (r : ref) (o : option B) (p : B → M A) (q : M A) g h :
  (∀ b, acts r (p b) (g b)) → acts r q h →
  acts r (match o with Some b => p b | None => q end)
    (λ d, match o with Some b => g b d | None => h d end).
Proof. by destruct o. Qed.

(** ** The blocks of clean_petroleum_data *)

Section clean_blocks.
Context {pd : Pandas}.

Lemma column_converted (d : DataFrame) :
  column "period" (converted d)
  = to_datetime_coerce (column "period" d) <$> column "period" d.
Proof.
  unfold converted, column at 1. cbn [rows setitem].
  rewrite set_cells_column, <- list_fmap_compose.
  unfold column. rewrite <- list_fmap_compose.
  apply list_fmap_ext. intros i [j r] _. cbn. by rewrite lookup_total_insert_eq.
Qed.

Lemma convert_types_run (w : world) (l : ref) (d : DataFrame) :
  heap w !! l = Some d →
  convert_types l w
  = if has_column "period" d then
      if has_column "value" (in_range (converted d)) then
        (Return (length (heap w)),
         with_heap (<[l := converted d]> (heap w)
                    ++ [numeric_value (in_range (converted d))]) w)
      else
        (Raise (KeyError (KStr "value")),
         with_heap (<[l := converted d]> (heap w) ++ [in_range (converted d)]) w)
    else (Raise (KeyError (KStr "period")), w).
Proof.
  intros Hl. unfold convert_types, bind at 1.
  rewrite (getitem_run _ _ _ _ Hl).
  destruct (has_column "period" d) eqn:Hp; [|done].
  unfold bind at 1. rewrite (update_run _ _ _ _ Hl).
  fold (converted d).
  set (w1 := with_heap (<[l:=converted d]> (heap w)) w).
  assert (Hl1 : heap w1 !! l = Some (converted d))
    by (by apply (lookup_heap_insert _ _ d)).
  unfold bind at 1. rewrite (getitem_run _ _ _ _ Hl1).
  unfold converted at 1. rewrite has_column_setitem by done.
  unfold bind at 1. rewrite (deref_run _ _ _ Hl1).
  fold (in_range (converted d)).
  unfold bind at 1, new at 1.
  set (w2 := with_heap (heap w1 ++ [in_range (converted d)]) w1).
  assert (Hl2 : heap w2 !! length (heap w1) = Some (in_range (converted d)))
    by (cbn [heap w2 with_heap]; apply list_lookup_middle; done).
  unfold bind at 1. rewrite (getitem_run _ _ _ _ Hl2).
  assert (Hlen : length (heap w1) = length (heap w))
    by (cbn; by rewrite length_insert).
  destruct (has_column "value" (in_range (converted d))); [|done].
  unfold bind at 1. rewrite (update_run _ _ _ _ Hl2).
  fold (numeric_value (in_range (converted d))).
  unfold ret. f_equal; [by rewrite Hlen|].
  subst w2 w1. cbn [heap with_heap]. unfold with_heap at 1. cbn.
  rewrite insert_app_r_alt by done. rewrite Nat.sub_diag. done.
Qed.

Lemma for_each_fill_modes (r : ref) (cols : list string) :
  acts r
    (for_each cols (λ col,
       let! s := getitem r col in
       match mode0 s with
       | None => raise (KeyError (KInt 0))
       | Some m => update r (setitem_same col (fillna m <$> s))
       end))
    (λ d, match fill_modes cols d with
          | Return d' => Return (tt, d')
          | Raise e => Raise e
          end).
Proof.
  induction cols as [|col cols IH].
  - apply acts_ret.
  - cbn [for_each]. eapply acts_ext.
    + eapply acts_bind; [|intros ?; apply IH].
      eapply acts_bind; [apply acts_getitem|]. intros s.
      apply acts_option; [intros m; apply acts_update|apply acts_raise].
    + intros d. cbn. destruct (has_column col d); [|done].
      by destruct (mode0 (column col d)).
Qed.

Lemma fill_missing_values_acts (r : ref) :
  acts r (fill_missing_values r)
    (λ d, let d3 := fillna_median (select_number d) d in
          match fill_modes (select_exclude_number d3) d3 with
          | Return d' => Return (tt, d')
          | Raise e => Raise e
          end).
Proof.
  unfold fill_missing_values. eapply acts_ext.
  - eapply acts_bind; [apply acts_deref|]. intros frame.
    eapply acts_bind; [apply acts_update|]. intros ?.
    eapply acts_bind; [apply acts_deref|]. intros frame'.
    apply for_each_fill_modes.
  - done.
Qed.

Lemma for_each_format_text (r : ref) (cols : list string) :
  acts r
    (for_each cols (λ col,
       let! frame := deref r in
       if has_column col frame then
         let! s := getitem r col in
         if str_accessor_ok (default object (dtype_of col frame)) s
         then update r (setitem col object (strip_title <$> s))
         else raise AttributeError
       else ret tt))
    (λ d, match format_text cols d with
          | Return d' => Return (tt, d')
          | Raise e => Raise e
          end).
Proof.
  induction cols as [|col cols IH].
  - apply acts_ret.
  - cbn [for_each]. eapply acts_ext.
    + eapply acts_bind; [|intros ?; apply IH].
      eapply acts_bind; [apply acts_deref|]. intros frame.
      apply acts_if; [|apply acts_ret].
      eapply acts_bind; [apply acts_getitem|]. intros s.
      apply acts_if; [apply acts_update|apply acts_raise].
    + intros d. cbn. destruct (has_column col d); [|done].
      by destruct (str_accessor_ok _ _).
Qed.

Lemma remove_outliers_run (w : world) (r : ref) (d : DataFrame) :
  heap w !! r = Some d →
  remove_outliers r w
  = if has_column "value" d then
      (Return (length (heap w)), with_heap (heap w ++ [without_outliers d]) w)
    else (Raise (KeyError (KStr "value")), w).
Proof.
  intros Hr. unfold remove_outliers, bind at 1. rewrite (getitem_run _ _ _ _ Hr).
  destruct (has_column "value" d); [|done].
  unfold bind. by rewrite (deref_run _ _ _ Hr).
Qed.

Lemma mapping_acts (r : ref) :
  acts r (mapping r) (λ d, Return (tt, map_duoarea (map_product d))).
Proof.
  unfold mapping. eapply acts_ext.
  - eapply acts_bind; [apply acts_deref|]. intros frame.
    eapply acts_bind.
    + apply acts_if; [|apply acts_ret].
      eapply acts_bind; [apply acts_getitem|]. intros s. apply acts_update.
    + intros ?. eapply acts_bind; [apply acts_deref|]. intros frame'.
      apply acts_if; [|apply acts_ret].
      eapply acts_bind; [apply acts_getitem|]. intros s. apply acts_update.
  - intros d. cbv beta iota. unfold map_duoarea, map_product.
    destruct (has_column "product" d) eqn:Hp; cbv beta iota.
    + by destruct (has_column "duoarea" _) eqn:Ha; rewrite ?Ha.
    + by destruct (has_column "duoarea" d) eqn:Ha; rewrite ?Ha.
Qed.

Lemma export_csv_run (w : world) (r : ref) (d : DataFrame) :
  heap w !! r = Some d →
  export_csv r w
  = (Return tt,
     with_files (<[processed_csv := Text (csv_lines d)]> (files w))
       (with_dirs (list_to_set ["data"; "data/processed"] ∪ dirs w) w)).
Proof.
  intros Hr. unfold export_csv, bind at 1, mkdir at 1.
  set (w1 := with_dirs _ w).
  assert (Hr1 : heap w1 !! r = Some d) by done.
  unfold bind at 1, to_csv at 1, bind at 1. rewrite (deref_run _ _ _ Hr1).
  unfold write_file at 1.
  set (w2 := with_files _ w1).
  assert (Hr2 : heap w2 !! r = Some d) by done.
  unfold bind at 1. rewrite (deref_run _ _ _ Hr2).
  destruct (empty d); cbn [negb].
  - unfold touch. subst w2. cbn [files with_files]. by rewrite lookup_insert_eq.
  - unfold to_csv, bind. rewrite (deref_run _ _ _ Hr2). unfold write_file.
    subst w2. unfold with_files at 1. cbn. by rewrite insert_insert_eq.
Qed.

End clean_blocks.

Lemma acts_run_last {A} (p : M A) g (w : world) (h : list DataFrame)
    (d d' : DataFrame) (a : A) :
  acts (length h) p g → g d = Return (a, d') →
  p (with_heap (h ++ [d]) w) = (Return a, with_heap (h ++ [d']) w).
Proof.
  intros Hp Hg.
  rewrite (acts_run _ _ _ (with_heap (h ++ [d]) w) d d' a Hp); [|by apply list_lookup_middle|done].
  unfold with_heap at 1. cbn [heap dirs files stdout environ network with_heap].
  rewrite insert_app_r_alt by done. by rewrite Nat.sub_diag.
Qed.

Lemma acts_raises_last {A} (p : M A) g (w : world) (h : list DataFrame)
    (d : DataFrame) (e : exn) :
  acts (length h) p g → g d = Raise e →
  ∃ w', p (with_heap (h ++ [d]) w) = (Raise e, w').
Proof.
  intros Hp Hg. eapply acts_raises; [done| |done]. by apply list_lookup_middle.
Qed.

Section clean_run.
Context {pd : Pandas}.

(** The whole function against the tables of [cleaned]. *)
Lemma clean_run (w : world) (l : ref) (d : DataFrame) :
  heap w !! l = Some d →
  match cleaned d with
  | Return out =>
      ∃ ws, working_table d = Return ws
            ∧ out = map_duoarea (map_product (without_outliers ws))
            ∧ clean_petroleum_data l w
              = (Return (S (length (heap w))), clean_world w l d ws out)
  | Raise e => ∃ w', clean_petroleum_data l w = (Raise e, w')
  end.
Proof.
  intros Hl. unfold cleaned, working_table.
  remember (clean_petroleum_data l w) as res eqn:Hres.
  unfold clean_petroleum_data in Hres.
  unfold bind at 1 in Hres. rewrite (convert_types_run _ _ _ Hl) in Hres.
  destruct (has_column "period" d); [|subst res; by eexists].
  destruct (has_column "value" (in_range (converted d))); [|subst res; by eexists].
  set (h := <[l:=converted d]> (heap w)) in *.
  assert (Hlen : length (heap w) = length h) by (subst h; by rewrite length_insert).
  rewrite Hlen in Hres.
  set (d1 := numeric_value (in_range (converted d))) in *.
  unfold bind at 1, drop_duplicates_inplace in Hres.
  rewrite (acts_run_last _ _ w h d1 (drop_duplicates d1) tt (acts_update _ _) eq_refl)
    in Hres.
  set (d2 := drop_duplicates d1) in *.
  unfold bind at 1 in Hres.
  pose proof (fill_missing_values_acts (length h)) as Hfill.
  cbv zeta.
  set (d3 := fillna_median (select_number d2) d2) in *.
  destruct (fill_modes (select_exclude_number d3) d3) as [e|d4] eqn:Hmodes.
  { destruct (acts_raises_last _ _ w h d2 e Hfill) as [w' Hw'].
    - cbv zeta. fold d3. by rewrite Hmodes.
    - rewrite Hw' in Hres. subst res. by eexists. }
  rewrite (acts_run_last _ _ w h d2 d4 tt Hfill) in Hres
    by (cbv zeta; fold d3; by rewrite Hmodes).
  unfold bind at 1, format_text_columns in Hres.
  pose proof (for_each_format_text (length h)
                ["area-name"; "product-name"; "process-name"]) as Hfmt.
  destruct (format_text _ d4) as [e|ws] eqn:Htext.
  { destruct (acts_raises_last _ _ w h d4 e Hfmt) as [w' Hw'].
    - by rewrite Htext.
    - rewrite Hw' in Hres. subst res. by eexists. }
  rewrite (acts_run_last _ _ w h d4 ws tt Hfmt) in Hres by (by rewrite Htext).
  unfold bind at 1 in Hres.
  rewrite (remove_outliers_run _ (length h) ws) in Hres
    by (by apply list_lookup_middle).
  destruct (has_column "value" ws); [|subst res; by eexists].
  exists ws. split; [done|]. split; [done|].
  cbn [heap with_heap] in Hres.
  set (d5 := without_outliers ws) in *.
  replace (length h) with (length (h ++ [ws]) - 1)%nat in Hres at 1
    by (rewrite length_app; cbn; lia).
  unfold bind at 1 in Hres.
  change (with_heap ((h ++ [ws]) ++ [d5]) (with_heap (h ++ [ws]) w))
    with (with_heap ((h ++ [ws]) ++ [d5]) w) in Hres.
  rewrite (acts_run_last _ _ w (h ++ [ws]) d5 (map_duoarea (map_product d5)) tt
             (mapping_acts _) eq_refl) in Hres.
  unfold bind at 1 in Hres.
  rewrite (export_csv_run _ _ (map_duoarea (map_product d5))) in Hres
    by (by apply list_lookup_middle).
  subst res. unfold ret, clean_world. f_equal.
  - f_equal. rewrite length_app, Hlen. cbn. lia.
  - unfold with_files, with_dirs, with_heap. cbn. by rewrite <- app_assoc.
Qed.

End clean_run.

(** ** Rows through the steps *)

Lemma keeps_refl (c : string) (r : gmap string cell) : keeps c r r.
Proof. by intros ?. Qed.

Lemma keeps_trans (c : string) (r1 r2 r3 : gmap string cell) :
  keeps c r1 r2 → keeps c r2 r3 → keeps c r1 r3.
Proof.
  unfold keeps. intros H12 H23 Hna. rewrite <- (H12 Hna). apply H23.
  by rewrite (H12 Hna).
Qed.

Lemma keeps_insert_ne (c c' : string) (v : cell) (r : gmap string cell) :
  c' ≠ c → keeps c r (<[c' := v]> r).
Proof. intros Hne _. by rewrite lookup_total_insert_ne. Qed.

Lemma keeps_insert_fillna (c c' : string) (m : cell) (r : gmap string cell) :
  keeps c r (<[c' := fillna m (r !!! c')]> r).
Proof.
  intros Hna. destruct (decide (c' = c)) as [->|Hne].
  - rewrite lookup_total_insert_eq. unfold fillna.
    by destruct (r !!! c).
  - by rewrite lookup_total_insert_ne.
Qed.

Lemma rows_from_refl (c : string) (d : DataFrame) : rows_from (keeps c) d d.
Proof. intros i r Hin. exists r. split; [done|apply keeps_refl]. Qed.

Lemma rows_from_trans (c : string) (d1 d2 d3 : DataFrame) :
  rows_from (keeps c) d1 d2 → rows_from (keeps c) d2 d3 → rows_from (keeps c) d1 d3.
Proof.
  intros H12 H23 i r3 Hin.
  destruct (H23 i r3 Hin) as (r2 & Hin2 & Hk2).
  destruct (H12 i r2 Hin2) as (r1 & Hin1 & Hk1).
  exists r1. split; [done|]. by eapply keeps_trans.
Qed.

Lemma rows_from_labels R (d d' : DataFrame) (i : nat) :
  rows_from R d d' → i ∈ (rows d').*1 → i ∈ (rows d).*1.
Proof.
  intros Hfrom ([j r'] & -> & Hin)%list_elem_of_fmap.
  destruct (Hfrom j r' Hin) as (r & Hr & _).
  apply list_elem_of_fmap. by exists (j, r).
Qed.

Lemma elem_of_mask_rows {A} (l : list A) (mask : list bool) (x : A) :
  x ∈ mask_rows l mask → x ∈ l.
Proof.
  revert mask. induction l as [|y l IH]; intros [|b mask]; cbn; try by intros ?%elem_of_nil.
  destruct b.
  - intros [->|Hin]%elem_of_cons; [left|right; by eapply IH].
  - intros Hin. right. by eapply IH.
Qed.

Lemma rows_from_getitem_mask (c : string) (mask : list bool) (d : DataFrame) :
  rows_from (keeps c) d (getitem_mask mask d).
Proof.
  intros i r Hin. exists r. split; [|apply keeps_refl].
  exact (elem_of_mask_rows _ _ _ Hin).
Qed.

Lemma rows_from_set_cells (c0 c : string) (vals : list cell) (d d' : DataFrame) :
  c ≠ c0 → rows d' = set_cells c vals (rows d) → rows_from (keeps c0) d d'.
Proof.
  intros Hne Hrows i r' Hin. rewrite Hrows in Hin.
  apply elem_of_zip_with in Hin as ([j r] & v & Heq & Hin & _).
  injection Heq as -> ->. exists r. split; [done|]. by apply keeps_insert_ne.
Qed.

Lemma rows_from_setitem (c0 c : string) (dt : dtype) (vals : list cell) (d : DataFrame) :
  c ≠ c0 → rows_from (keeps c0) d (setitem c dt vals d).
Proof. intros Hne. by eapply rows_from_set_cells. Qed.

Lemma rows_from_setitem_same (c0 c : string) (vals : list cell) (d : DataFrame) :
  c ≠ c0 → rows_from (keeps c0) d (setitem_same c vals d).
Proof. intros Hne. by eapply rows_from_set_cells. Qed.

Lemma rows_from_fillna (c0 c : string) (m : cell) (d : DataFrame) :
  rows_from (keeps c0) d (setitem_same c (fillna m <$> column c d) d).
Proof.
  intros i r' Hin. cbn [rows setitem_same] in Hin.
  rewrite set_cells_column in Hin.
  apply list_elem_of_fmap in Hin as ([j r] & Heq & Hin).
  injection Heq as -> ->. exists r. split; [done|]. apply keeps_insert_fillna.
Qed.

Lemma elem_of_drop_dup_rows (cols : list string) (seen : list (gmap string cell))
    (l : list (nat * gmap string cell)) (x : nat * gmap string cell) :
  x ∈ drop_dup_rows cols seen l → x ∈ l.
Proof.
  revert seen. induction l as [|y l IH]; intros seen; cbn; [done|].
  destruct (existsb _ seen).
  - intros Hin. right. by eapply IH.
  - intros [->|Hin]%elem_of_cons; [left|right; by eapply IH].
Qed.

Lemma rows_from_drop_duplicates (c : string) (d : DataFrame) :
  rows_from (keeps c) d (drop_duplicates d).
Proof.
  intros i r Hin. exists r. split; [|apply keeps_refl].
  exact (elem_of_drop_dup_rows _ _ _ _ Hin).
Qed.

Lemma rows_fillna_median (cols : list string) (d : DataFrame) :
  rows (fillna_median cols d)
  = (λ ir, (ir.1,
            foldr (λ c racc,
                     <[c := fillna (of_float (median (column c d))) (ir.2 !!! c)]> racc)
                  ir.2 cols)) <$> rows d.
Proof.
  unfold fillna_median. induction cols as [|c cols IH]; cbn [foldr].
  - cbn. rewrite <- (list_fmap_id (rows d)) at 1. apply list_fmap_ext. by intros ? [].
  - cbn [rows setitem_same]. rewrite IH. unfold set_cells, column.
    rewrite <- list_fmap_compose, zip_with_fmap_l, zip_with_fmap_r, zip_with_diag.
    done.
Qed.

Lemma rows_from_fillna_median (c0 : string) (cols : list string) (d : DataFrame) :
  rows_from (keeps c0) d (fillna_median cols d).
Proof.
  intros i r' Hin. rewrite rows_fillna_median in Hin.
  apply list_elem_of_fmap in Hin as ([j r] & Heq & Hin). cbn in Heq.
  injection Heq as -> ->. exists r. split; [done|].
  induction cols as [|c cols IH]; cbn [foldr]; [apply keeps_refl|].
  intros Hna. destruct (decide (c = c0)) as [->|Hne].
  - rewrite lookup_total_insert_eq. unfold fillna. by destruct (r !!! c0).
  - rewrite lookup_total_insert_ne by done. by apply IH.
Qed.

Section rows_clean.
Context {pd : Pandas}.

Lemma rows_from_fill_modes (c0 : string) (cols : list string) (d d' : DataFrame) :
  fill_modes cols d = Return d' → rows_from (keeps c0) d d'.
Proof.
  revert d. induction cols as [|c cols IH]; intros d; cbn [fill_modes].
  - intros [= ->]. apply rows_from_refl.
  - destruct (has_column c d); [|done].
    destruct (mode0 (column c d)) as [m|]; [|done].
    intros Hrest. eapply rows_from_trans; [apply rows_from_fillna|by apply IH].
Qed.

Lemma rows_from_format_text (c0 : string) (cols : list string) (d d' : DataFrame) :
  c0 ∉ cols → format_text cols d = Return d' → rows_from (keeps c0) d d'.
Proof.
  revert d. induction cols as [|c cols IH]; intros d Hnotin; cbn [format_text].
  - intros [= ->]. apply rows_from_refl.
  - apply not_elem_of_cons in Hnotin as [Hne Hnotin].
    destruct (has_column c d); [|by apply IH].
    destruct (str_accessor_ok _ _); [|done].
    intros Hrest. eapply rows_from_trans; [|by apply IH].
    by apply rows_from_setitem.
Qed.

Lemma rows_from_map_product (c0 : string) (d : DataFrame) :
  c0 ≠ "product" → rows_from (keeps c0) d (map_product d).
Proof.
  intros Hne. unfold map_product. destruct (has_column "product" d).
  - by apply rows_from_setitem_same.
  - apply rows_from_refl.
Qed.

Lemma rows_from_map_duoarea (c0 : string) (d : DataFrame) :
  c0 ≠ "duoarea" → rows_from (keeps c0) d (map_duoarea d).
Proof.
  intros Hne. unfold map_duoarea. destruct (has_column "duoarea" d).
  - by apply rows_from_setitem.
  - apply rows_from_refl.
Qed.

(** From the table of line 80 to the working table, a period that is set
    stays. *)
Lemma working_table_rows (d ws : DataFrame) :
  working_table d = Return ws →
  rows_from (keeps "period") (in_range (converted d)) ws.
Proof.
  unfold working_table.
  destruct (has_column "period" d); [|done].
  destruct (has_column "value" _); [|done].
  cbv zeta.
  set (d1 := numeric_value (in_range (converted d))).
  set (d2 := drop_duplicates d1).
  set (d3 := fillna_median (select_number d2) d2).
  destruct (fill_modes _ d3) as [e|d4] eqn:Hmodes; [done|].
  intros Htext.
  eapply rows_from_trans; [by apply (rows_from_setitem "period" "value")|].
  eapply rows_from_trans; [apply rows_from_drop_duplicates|].
  eapply rows_from_trans; [apply rows_from_fillna_median|].
  eapply rows_from_trans; [by eapply rows_from_fill_modes|].
  eapply rows_from_format_text; [|done].
  rewrite !not_elem_of_cons. repeat split; [done..|apply not_elem_of_nil].
Qed.

(** From the working table to the returned table. *)
Lemma cleaned_rows (c0 : string) (ws : DataFrame) :
  c0 ≠ "product" → c0 ≠ "duoarea" →
  rows_from (keeps c0) ws (map_duoarea (map_product (without_outliers ws))).
Proof.
  intros Hp Ha.
  eapply rows_from_trans; [apply rows_from_getitem_mask|].
  eapply rows_from_trans; [by apply rows_from_map_product|].
  by apply rows_from_map_duoarea.
Qed.

End rows_clean.

(** ** Returns of clean_petroleum_data *)

Section clean_returns.
Context {pd : Pandas}.

Lemma clean_returns (w w' : world) (l l' : ref) (d : DataFrame) :
  heap w !! l = Some d →
  clean_petroleum_data l w = (Return l', w') →
  ∃ ws, working_table d = Return ws
        ∧ l' = S (length (heap w))
        ∧ w' = clean_world w l d ws (map_duoarea (map_product (without_outliers ws))).
Proof.
  intros Hl Hres. pose proof (clean_run w l d Hl) as Hrun.
  destruct (cleaned d) as [e|out].
  - destruct Hrun as [w'' Hw'']. congruence.
  - destruct Hrun as (ws & Hws & -> & Hrun). exists ws.
    rewrite Hrun in Hres. injection Hres as <- <-. done.
Qed.

Lemma clean_world_lookup (w : world) (l : ref) (d ws out : DataFrame) :
  heap (clean_world w l d ws out) !! S (length (heap w)) = Some out.
Proof.
  unfold clean_world. cbn [heap with_files with_dirs with_heap].
  rewrite lookup_app_r by (rewrite length_insert; lia).
  rewrite length_insert. by replace (S (length (heap w)) - length (heap w))%nat with 1%nat by lia.
Qed.

Lemma mask_column_rows (c : string) (g : cell → bool) (d : DataFrame) :
  rows (getitem_mask (g <$> column c d) d)
  = filter (λ ir, g (ir.2 !!! c) = true) (rows d).
Proof.
  cbn [rows getitem_mask]. unfold column. rewrite <- list_fmap_compose.
  by rewrite mask_rows_fmap.
Qed.

(** The rows that pass line 80. *)
Lemma in_range_rows (d : DataFrame) (i : nat) (r1 : gmap string cell) :
  (i, r1) ∈ rows (in_range (converted d)) →
  ∃ r0 y m dd,
    (i, r0) ∈ rows d
    ∧ to_datetime_coerce (column "period" d) (r0 !!! "period") = Timestamp y m dd
    ∧ r1 !!! "period" = Timestamp y m dd
    ∧ (1990 ≤ y ≤ 2025)%Z.
Proof.
  unfold in_range. rewrite mask_column_rows.
  intros [Hbetween Hin]%list_elem_of_filter. cbn [snd] in Hbetween.
  unfold converted in Hin. cbn [rows setitem] in Hin.
  rewrite set_cells_column in Hin.
  apply list_elem_of_fmap in Hin as ([j r0] & Heq & Hin).
  injection Heq as -> ->. cbn [fst snd] in *.
  rewrite lookup_total_insert_eq in Hbetween.
  destruct (to_datetime_coerce _ (r0 !!! "period")) as [| |?|y m dd] eqn:Hconv;
    try discriminate.
  exists r0, y, m, dd. split; [done|]. split; [done|].
  split; [by rewrite lookup_total_insert_eq|].
  cbn in Hbetween. apply andb_prop in Hbetween as [Hlo Hhi].
  apply bool_decide_eq_true in Hlo, Hhi. lia.
Qed.

End clean_returns.

(** C3.  Whenever clean_petroleum_data returns, every record of the returned
    table has a period that is a date of a year in [1990, 2025], and it
    comes from the input row of the same label, whose period converted to
    that date; so an input row whose period does not convert, or converts
    to a year outside [1990, 2025], has no record in the output. *)
Theorem clean_period_year_in_range {pd : Pandas} (w w' : world) (l l' : ref) (d : DataFrame) :
  heap w !! l = Some d →
  clean_petroleum_data l w = (Return l', w') →
  ∃ out,
    heap w' !! l' = Some out
    ∧ (∀ i r, (i, r) ∈ rows out →
         ∃ r0 y m dd,
           (i, r0) ∈ rows d
           ∧ to_datetime_coerce (column "period" d) (r0 !!! "period") = Timestamp y m dd
           ∧ r !!! "period" = Timestamp y m dd
           ∧ (1990 ≤ y ≤ 2025)%Z)
    ∧ (NoDup (rows d).*1 →
       ∀ i r0, (i, r0) ∈ rows d →
         between 1990 2025
           (dt_year (to_datetime_coerce (column "period" d) (r0 !!! "period"))) = false →
         i ∉ (rows out).*1).
Proof.
  intros Hl Hres.
  destruct (clean_returns _ _ _ _ _ Hl Hres) as (ws & Hws & -> & ->).
  eexists. split; [apply clean_world_lookup|].
  assert (Hrows : ∀ i r,
    (i, r) ∈ rows (map_duoarea (map_product (without_outliers ws))) →
    ∃ r0 y m dd,
      (i, r0) ∈ rows d
      ∧ to_datetime_coerce (column "period" d) (r0 !!! "period") = Timestamp y m dd
      ∧ r !!! "period" = Timestamp y m dd
      ∧ (1990 ≤ y ≤ 2025)%Z).
  { intros i r Hin.
    destruct (cleaned_rows "period" ws ltac:(done) ltac:(done) i r Hin)
      as (r2 & Hin2 & Hk2).
    destruct (working_table_rows d ws Hws i r2 Hin2) as (r1 & Hin1 & Hk1).
    destruct (in_range_rows d i r1 Hin1) as (r0 & y & m & dd & Hin0 & Hconv & Hp & Hy).
    exists r0, y, m, dd. repeat split; try done; try lia.
    assert (Hr2 : r2 !!! "period" = Timestamp y m dd).
    { rewrite <- Hp. apply Hk1. by rewrite Hp. }
    rewrite <- Hr2. apply Hk2. by rewrite Hr2. }
  split; [exact Hrows|].
  intros Hnodup i r0 Hin0 Hout Hlabel.
  apply list_elem_of_fmap in Hlabel as ([j r] & -> & Hin). cbn [fst] in *.
  destruct (Hrows j r Hin) as (r0' & y & m & dd & Hin0' & Hconv & _ & Hy).
  assert (r0' = r0) as ->.
  { by eapply NoDup_fst_functional. }
  rewrite Hconv in Hout. cbn in Hout.
  apply andb_false_iff in Hout as [Hf|Hf]; apply bool_decide_eq_false in Hf; lia.
Qed.

Lemma run_eta {A} (p : M A) (w : world) (r : result A) :
  (p w).1 = r → p w = (r, (p w).2).
Proof. intros <-. by destruct (p w). Qed.

Lemma clean_period_year_in_range_witness :
  ∃ out,
    heap (clean_petroleum_data (pd := pandas_ascii) 0
            (world_of [two_periods_input] unavailable)).2 !! 2%nat = Some out
    ∧ (∀ i r, (i, r) ∈ rows out →
         ∃ r0 y m dd,
           (i, r0) ∈ rows two_periods_input
           ∧ to_datetime_coerce (pd := pandas_ascii) (column "period" two_periods_input)
               (r0 !!! "period") = Timestamp y m dd
           ∧ r !!! "period" = Timestamp y m dd
           ∧ (1990 ≤ y ≤ 2025)%Z)
    ∧ (NoDup (rows two_periods_input).*1 →
       ∀ i r0, (i, r0) ∈ rows two_periods_input →
         between 1990 2025
           (dt_year (to_datetime_coerce (pd := pandas_ascii)
                       (column "period" two_periods_input) (r0 !!! "period"))) = false →
         i ∉ (rows out).*1).
Proof.
  apply (clean_period_year_in_range (pd := pandas_ascii)
           (world_of [two_periods_input] unavailable) _ 0%nat 2%nat two_periods_input).
  - reflexivity.
  - apply run_eta. vm_compute. reflexivity.
Defined.

Lemma scenario_cleaned : cleaned (pd := pandas_ascii) scenario_input = Return scenario_output.
Proof. apply (bool_decide_unpack _). vm_compute. exact I. Qed.

(** C2.  Cleaning the single input row period "2025", value "3.459",
    product "EPMR", duoarea "NUS" returns a table with exactly one record:
    period 2025-01-01, value 3.459, product "Regular Gasoline", duoarea
    "United States". *)
Theorem clean_scenario_row (w : world) (l : ref) :
  heap w !! l = Some scenario_input →
  ∃ l' w',
    clean_petroleum_data (pd := pandas_ascii) l w = (Return l', w')
    ∧ heap w' !! l' = Some scenario_output.
Proof.
  intros Hl. pose proof (clean_run (pd := pandas_ascii) w l _ Hl) as Hrun.
  rewrite scenario_cleaned in Hrun. destruct Hrun as (ws & _ & _ & Hrun).
  eexists _, _. split; [exact Hrun|]. apply clean_world_lookup.
Qed.

Lemma clean_scenario_row_witness :
  heap (world_of [scenario_input] unavailable) !! 0%nat = Some scenario_input
  ∧ ∃ l' w',
      clean_petroleum_data (pd := pandas_ascii) 0 (world_of [scenario_input] unavailable)
      = (Return l', w')
      ∧ heap w' !! l' = Some scenario_output.
Proof.
  split; [reflexivity|].
  apply (clean_scenario_row (world_of [scenario_input] unavailable) 0%nat).
  reflexivity.
Defined.

Lemma fle_nan_l (b : float64) : fle None b = false.
Proof. by destruct b as [[| |]|]. Qed.

Lemma fle_nan_r (a : float64) : fle a None = false.
Proof. by destruct a as [[| |]|]. Qed.

Lemma fsub_nan_l (b : float64) : fsub None b = None.
Proof. by destruct b as [[| |]|]. Qed.

Lemma fsub_nan_r (a : float64) : fsub a None = None.
Proof. by destruct a as [[| |]|]. Qed.

Lemma fadd_nan_l (b : float64) : fadd None b = None.
Proof. by destruct b as [[| |]|]. Qed.

Lemma fadd_nan_r (a : float64) : fadd a None = None.
Proof. by destruct a as [[| |]|]. Qed.

Lemma fmul_nan_r (a : float64) : fmul a None = None.
Proof. by destruct a as [[| |]|]. Qed.

(** The operations round as float64 does.  The mean of 0.1 and 0.2 is
    0.15000000000000002 and not the float64 nearest to 0.15; on the prices
    0.0, 0.3, 0.4, 0.7, 1.3 the upper bound 0.7 + 1.5 * (0.7 - 0.3) comes out
    as 1.2999999999999998, below 1.3, and on 0.0, 0.1, 0.3, 0.6, 1.35 the
    upper bound 0.6 + 1.5 * (0.6 - 0.1) comes out as 1.35. *)
Example median_rounds :
  median [Num (nearest 1 10); Num (nearest 2 10)]
  = Some (nearest 15000000000000002 100000000000000000)
  ∧ nearest 15000000000000002 100000000000000000 ≠ nearest 15 100.
Proof. split; [vm_compute; reflexivity|vm_compute; discriminate]. Qed.

Example upper_bound_rounds :
  let below := [Num Zero; Num (nearest 3 10); Num (nearest 4 10);
                Num (nearest 7 10); Num (nearest 13 10)] in
  let reached := [Num Zero; Num (nearest 1 10); Num (nearest 3 10);
                  Num (nearest 6 10); Num (nearest 135 100)] in
  upper_bound below = Some (nearest 12999999999999998 10000000000000000)
  ∧ within_iqr below (Num (nearest 13 10)) = false
  ∧ upper_bound reached = Some (nearest 135 100)
  ∧ within_iqr reached (Num (nearest 135 100)) = true.
Proof. cbv zeta. repeat split; vm_compute; reflexivity. Qed.

Section outliers.
Context {pd : Pandas}.

Lemma within_iqr_bounds (value : list cell) (c : cell) :
  within_iqr value c = true →
  ∃ v q1 q3,
    Q1_of value = Some q1 ∧ Q3_of value = Some q3 ∧ c = Num v
    ∧ fle (fsub (Some q1) (fmul (Some (nearest 3 2)) (fsub (Some q3) (Some q1))))
          (Some v) = true
    ∧ fle (Some v)
          (fadd (Some q3) (fmul (Some (nearest 3 2)) (fsub (Some q3) (Some q1))))
      = true.
Proof.
  unfold within_iqr, lower_bound, upper_bound, fge. cbv zeta.
  intros [Hlo Hhi]%andb_prop.
  destruct c as [| |v|]; cbn [to_float] in Hlo, Hhi;
    try (by rewrite fle_nan_l in Hhi).
  destruct (Q1_of value) as [q1|].
  2: { by rewrite fsub_nan_l, fle_nan_l in Hlo. }
  destruct (Q3_of value) as [q3|].
  2: { by rewrite fadd_nan_l, fle_nan_r in Hhi. }
  by exists v, q1, q3.
Qed.

Lemma without_outliers_rows (ws : DataFrame) (i : nat) (r : gmap string cell) :
  (i, r) ∈ rows (without_outliers ws) →
  (i, r) ∈ rows ws ∧ within_iqr (column "value" ws) (r !!! "value") = true.
Proof.
  unfold without_outliers. rewrite mask_column_rows.
  intros [Hin Hrow]%list_elem_of_filter. done.
Qed.

End outliers.

(** C1, as the code has it.  Whenever clean_petroleum_data returns, the
    value [v] of every returned record passes the two comparisons of line
    101, [Q1 - 1.5 * IQR <= v] and [v <= Q3 + 1.5 * IQR], where Q1 and Q3
    are the quartiles of the value column of the working table, that is of
    the table the filter was applied to (after the year filter, the removal
    of duplicates and the imputation), and where the differences, the
    product and the sum are those of float64, each rounded as the code
    computes them; the record is a row of that working table with the same
    value. *)
Theorem clean_values_within_working_band {pd : Pandas}
    (w w' : world) (l l' : ref) (d : DataFrame) :
  heap w !! l = Some d →
  clean_petroleum_data l w = (Return l', w') →
  ∃ ws out,
    working_table d = Return ws
    ∧ heap w' !! l' = Some out
    ∧ ∀ i r, (i, r) ∈ rows out →
        ∃ r2 v q1 q3,
          (i, r2) ∈ rows ws
          ∧ r2 !!! "value" = Num v
          ∧ r !!! "value" = Num v
          ∧ Q1_of (column "value" ws) = Some q1
          ∧ Q3_of (column "value" ws) = Some q3
          ∧ fle (fsub (Some q1)
                   (fmul (Some (nearest 3 2)) (fsub (Some q3) (Some q1))))
                (Some v) = true
          ∧ fle (Some v)
                (fadd (Some q3)
                   (fmul (Some (nearest 3 2)) (fsub (Some q3) (Some q1))))
            = true.
Proof.
  intros Hl Hres.
  destruct (clean_returns _ _ _ _ _ Hl Hres) as (ws & Hws & -> & ->).
  exists ws. eexists. split; [done|]. split; [apply clean_world_lookup|].
  intros i r Hin.
  assert (Hmaps : rows_from (keeps "value") (without_outliers ws)
                    (map_duoarea (map_product (without_outliers ws)))).
  { eapply rows_from_trans; [by apply rows_from_map_product|].
    by apply rows_from_map_duoarea. }
  destruct (Hmaps i r Hin) as (r2 & Hin2 & Hkeep).
  apply without_outliers_rows in Hin2 as [Hin2 Hband].
  apply within_iqr_bounds in Hband as (v & q1 & q3 & HQ1 & HQ3 & Hv & Hlo & Hhi).
  exists r2, v, q1, q3. repeat split; try done.
  rewrite <- Hv. apply Hkeep. by rewrite Hv.
Qed.

Lemma clean_values_within_working_band_witness :
  ∃ ws out,
    working_table (pd := pandas_ascii) far_outlier_input = Return ws
    ∧ heap (clean_petroleum_data (pd := pandas_ascii) 0
              (world_of [far_outlier_input] unavailable)).2 !! 2%nat = Some out
    ∧ ∀ i r, (i, r) ∈ rows out →
        ∃ r2 v q1 q3,
          (i, r2) ∈ rows ws
          ∧ r2 !!! "value" = Num v
          ∧ r !!! "value" = Num v
          ∧ Q1_of (column "value" ws) = Some q1
          ∧ Q3_of (column "value" ws) = Some q3
          ∧ fle (fsub (Some q1)
                   (fmul (Some (nearest 3 2)) (fsub (Some q3) (Some q1))))
                (Some v) = true
          ∧ fle (Some v)
                (fadd (Some q3)
                   (fmul (Some (nearest 3 2)) (fsub (Some q3) (Some q1))))
            = true.
Proof.
  apply (clean_values_within_working_band (pd := pandas_ascii)
           (world_of [far_outlier_input] unavailable) _ 0%nat 2%nat far_outlier_input).
  - reflexivity.
  - apply run_eta. vm_compute. reflexivity.
Defined.

(** The claim C1 as stated fails: the filter is applied once and is not
    idempotent.  On the prices 0, 1, 2, 8, 100 the function drops 100 and
    returns 0, 1, 2, 8, whose own quartiles are 0.75 and 3.5, so that 8 lies
    above Q3 + 1.5·IQR = 7.625; filtering the returned table once more
    removes a row.  These numbers are float64 values, and no operation on
    them rounds. *)
Lemma clean_iqr_filter_not_idempotent :
  let res := clean_petroleum_data (pd := pandas_ascii) 0
               (world_of [far_outlier_input] unavailable) in
  let out := heap res.2 !!! 2%nat in
  res.1 = Return 2%nat
  ∧ Num (nearest 8 1) ∈ column "value" out
  ∧ Q1_of (column "value" out) = Some (nearest 3 4)
  ∧ Q3_of (column "value" out) = Some (nearest 7 2)
  ∧ upper_bound (column "value" out) = Some (nearest 61 8)
  ∧ within_iqr (column "value" out) (Num (nearest 8 1)) = false
  ∧ length (rows out) = 4%nat
  ∧ length (rows (without_outliers out)) = 3%nat.
Proof.
  cbv zeta.
  refine (conj _ (conj _ (conj _ (conj _ (conj _ (conj _ (conj _ _))))))).
  - vm_compute. reflexivity.
  - apply (bool_decide_unpack _). vm_compute. exact I.
  - vm_compute. reflexivity.
  - vm_compute. reflexivity.
  - vm_compute. reflexivity.
  - vm_compute. reflexivity.
  - vm_compute. reflexivity.
  - vm_compute. reflexivity.
Qed.

(** ** The code-mapping step *)

Lemma fillna_with_fmap (f : cell → cell) (col : list cell) :
  fillna_with (f <$> col) col = (λ o, fillna o (f o)) <$> col.
Proof. unfold fillna_with. by rewrite zip_with_fmap_l, zip_with_diag. Qed.

Section mapping_step.
Context {pd : Pandas}.

Lemma rows_map_product (d : DataFrame) :
  has_column "product" d = true →
  rows (map_product d)
  = (λ ir, (ir.1, <["product" :=
                      fillna (ir.2 !!! "product")
                        (map_dict product_map (ir.2 !!! "product"))]> ir.2))
      <$> rows d.
Proof.
  intros Hp. unfold map_product. rewrite Hp. cbn [rows setitem_same].
  by rewrite fillna_with_fmap, set_cells_column.
Qed.

Lemma rows_map_duoarea (d : DataFrame) :
  has_column "duoarea" d = true →
  rows (map_duoarea d)
  = (λ ir, (ir.1, <["duoarea" :=
                      fillna (Str "Unknown")
                        (map_dict area_map (ir.2 !!! "duoarea"))]> ir.2))
      <$> rows d.
Proof.
  intros Ha. unfold map_duoarea. rewrite Ha. cbn [rows setitem].
  by rewrite <- list_fmap_compose, set_cells_column.
Qed.

Lemma has_column_map_product (c : string) (d : DataFrame) :
  has_column c (map_product d) = has_column c d.
Proof. unfold map_product. by destruct (has_column "product" d). Qed.

End mapping_step.

(** What the two lookups do to one code. *)
Lemma map_dict_product_key (code name : string) :
  product_map !! code = Some name →
  fillna (Str code) (map_dict product_map (Str code)) = Str name.
Proof. intros Hk. cbn [map_dict]. by rewrite Hk. Qed.

Lemma map_dict_product_other (code : string) :
  product_map !! code = None →
  fillna (Str code) (map_dict product_map (Str code)) = Str code.
Proof. intros Hk. cbn [map_dict]. by rewrite Hk. Qed.

Lemma map_dict_area_key (code name : string) :
  area_map !! code = Some name →
  fillna (Str "Unknown") (map_dict area_map (Str code)) = Str name.
Proof. intros Hk. cbn [map_dict]. by rewrite Hk. Qed.

Lemma map_dict_area_other (code : string) :
  area_map !! code = None →
  fillna (Str "Unknown") (map_dict area_map (Str code)) = Str "Unknown".
Proof. intros Hk. cbn [map_dict]. by rewrite Hk. Qed.

(** C4.  The mapping step (lines 104-127) rewrites the table in place, row
    by row: a region code that is a key of [area_map] becomes its mapped
    name and any other region code becomes "Unknown"; a product code that
    is a key of [product_map] becomes its mapped name and any other product
    code stays as it is. *)
Theorem mapping_follows_lookup_tables (w : world) (df : ref) (d : DataFrame) :
  heap w !! df = Some d →
  ∃ d',
    mapping df w = (Return tt, with_heap (<[df := d']> (heap w)) w)
    ∧ ∀ k i row, rows d !! k = Some (i, row) →
        ∃ row',
          rows d' !! k = Some (i, row')
          ∧ (has_column "duoarea" d = true →
             ∀ code, row !!! "duoarea" = Str code →
               (∀ name, area_map !! code = Some name → row' !!! "duoarea" = Str name)
               ∧ (area_map !! code = None → row' !!! "duoarea" = Str "Unknown"))
          ∧ (has_column "product" d = true →
             ∀ code, row !!! "product" = Str code →
               (∀ name, product_map !! code = Some name → row' !!! "product" = Str name)
               ∧ (product_map !! code = None → row' !!! "product" = Str code)).
Proof.
  intros Hdf. exists (map_duoarea (map_product d)).
  split; [by apply (acts_run _ _ _ _ _ _ _ (mapping_acts df) Hdf)|].
  intros k i row Hk.
  destruct (has_column "product" d) eqn:Hp, (has_column "duoarea" d) eqn:Ha.
  - eexists. rewrite rows_map_duoarea by (by rewrite has_column_map_product).
    rewrite rows_map_product by done.
    rewrite !list_lookup_fmap, Hk. cbn. split; [done|].
    split; intros _ code Hcode.
    + rewrite lookup_total_insert_eq, lookup_total_insert_ne, Hcode by done.
      split; [apply map_dict_area_key|apply map_dict_area_other].
    + rewrite lookup_total_insert_ne, lookup_total_insert_eq, Hcode by done.
      split; [apply map_dict_product_key|apply map_dict_product_other].
  - eexists. unfold map_duoarea. rewrite has_column_map_product, Ha.
    rewrite rows_map_product by done.
    rewrite list_lookup_fmap, Hk. cbn. split; [done|].
    split; [done|]. intros _ code Hcode.
    rewrite lookup_total_insert_eq, Hcode.
    split; [apply map_dict_product_key|apply map_dict_product_other].
  - eexists. rewrite rows_map_duoarea by (by rewrite has_column_map_product).
    unfold map_product. rewrite Hp.
    rewrite list_lookup_fmap, Hk. cbn. split; [done|].
    split; [|done]. intros _ code Hcode.
    rewrite lookup_total_insert_eq, Hcode.
    split; [apply map_dict_area_key|apply map_dict_area_other].
  - exists row. unfold map_duoarea. rewrite has_column_map_product, Ha.
    unfold map_product. rewrite Hp. done.
Qed.

Lemma mapping_follows_lookup_tables_witness :
  let d := table_of [raw_record "2025" "3.459" "EPMR" "NUS";
                     raw_record "2025" "3.459" "EPXX" "R99"] in
  let w := world_of [d] unavailable in
  ∃ d',
    mapping 0 w = (Return tt, with_heap (<[0%nat := d']> (heap w)) w)
    ∧ ∀ k i row, rows d !! k = Some (i, row) →
        ∃ row',
          rows d' !! k = Some (i, row')
          ∧ (has_column "duoarea" d = true →
             ∀ code, row !!! "duoarea" = Str code →
               (∀ name, area_map !! code = Some name → row' !!! "duoarea" = Str name)
               ∧ (area_map !! code = None → row' !!! "duoarea" = Str "Unknown"))
          ∧ (has_column "product" d = true →
             ∀ code, row !!! "product" = Str code →
               (∀ name, product_map !! code = Some name → row' !!! "product" = Str name)
               ∧ (product_map !! code = None → row' !!! "product" = Str code)).
Proof.
  cbv zeta.
  apply mapping_follows_lookup_tables.
  reflexivity.
Defined.

(** ** Missing columns *)

Section missing_columns.
Context {pd : Pandas}.

Lemma names_converted (d : DataFrame) :
  has_column "period" d = true → names (converted d) = names d.
Proof.
  intros Hp%bool_decide_eq_true. unfold converted, names. cbn [columns setitem].
  by apply names_set_dtype_in.
Qed.

Lemma has_column_in_range_converted (c : string) (d : DataFrame) :
  has_column "period" d = true →
  has_column c (in_range (converted d)) = has_column c d.
Proof.
  intros Hp. unfold has_column.
  change (names (in_range (converted d))) with (names (converted d)).
  by rewrite names_converted.
Qed.

Lemma clean_raises_in_convert_types (w : world) (l : ref) (e : exn) (w1 : world) :
  convert_types l w = (Raise e, w1) → clean_petroleum_data l w = (Raise e, w1).
Proof. intros Hc. unfold clean_petroleum_data, bind. by rewrite Hc. Qed.

End missing_columns.

(** C6, as the code has it.  A table without a period column makes
    clean_petroleum_data fail with KeyError('period') at its first
    statement, the world untouched.  A table with a period column and
    without a value column makes it fail with KeyError('value') at line 81:
    by then the period column of the caller's table has been converted to
    dates and the year filter has produced a new table; no directory and no
    file has been written. *)
Theorem clean_missing_column {pd : Pandas} (w : world) (l : ref) (d : DataFrame) :
  heap w !! l = Some d →
  (has_column "period" d = false →
   clean_petroleum_data l w = (Raise (KeyError (KStr "period")), w))
  ∧ (has_column "period" d = true → has_column "value" d = false →
     ∃ w',
       clean_petroleum_data l w = (Raise (KeyError (KStr "value")), w')
       ∧ heap w' = <[l := converted d]> (heap w) ++ [in_range (converted d)]
       ∧ dirs w' = dirs w
       ∧ files w' = files w).
Proof.
  intros Hl. pose proof (convert_types_run w l d Hl) as Hrun. split.
  - intros Hp. rewrite Hp in Hrun. by apply clean_raises_in_convert_types.
  - intros Hp Hv. rewrite Hp, has_column_in_range_converted, Hv in Hrun by done.
    eexists. split; [by apply clean_raises_in_convert_types|]. done.
Qed.

Lemma clean_missing_column_witness :
  let w := world_of [period_only_input; DataFrame_empty] unavailable in
  (clean_petroleum_data (pd := pandas_ascii) 1 w = (Raise (KeyError (KStr "period")), w))
  ∧ ∃ w',
      clean_petroleum_data (pd := pandas_ascii) 0 w = (Raise (KeyError (KStr "value")), w')
      ∧ heap w' = <[0%nat := converted (pd := pandas_ascii) period_only_input]> (heap w)
                  ++ [in_range (converted (pd := pandas_ascii) period_only_input)]
      ∧ dirs w' = dirs w
      ∧ files w' = files w.
Proof.
  cbv zeta. split.
  - apply (clean_missing_column (pd := pandas_ascii) _ 1%nat DataFrame_empty);
      reflexivity.
  - apply (clean_missing_column (pd := pandas_ascii) _ 0%nat period_only_input);
      reflexivity.
Defined.

(** The claim C6 as stated fails for a missing value column: the failure
    comes after processing has begun.  On a table with a period column
    only, the function raises KeyError('value'), and the caller's table,
    whose period was the string "2025", now holds the date 2025-01-01; a
    second table (the result of the year filter) has been created. *)
Lemma clean_missing_value_fails_after_conversion :
  let w := world_of [period_only_input] unavailable in
  let res := clean_petroleum_data (pd := pandas_ascii) 0 w in
  res.1 = Raise (KeyError (KStr "value"))
  ∧ column "period" (heap w !!! 0%nat) = [Str "2025"]
  ∧ column "period" (heap res.2 !!! 0%nat) = [Timestamp 2025 1 1]
  ∧ length (heap w) = 1%nat
  ∧ length (heap res.2) = 2%nat
  ∧ res.2 ≠ w.
Proof.
  cbv zeta.
  refine (conj _ (conj _ (conj _ (conj _ (conj _ _))))); try (vm_compute; reflexivity).
  intros Heq. apply (f_equal (λ w, length (heap w))) in Heq. vm_compute in Heq.
  discriminate.
Qed.

(** ** Duplicates *)

Lemma same_row_sym (cols : list string) (r r' : gmap string cell) :
  same_row cols r r' = same_row cols r' r.
Proof.
  unfold same_row. induction cols as [|c cols IH]; [done|]. cbn. rewrite IH.
  f_equal. apply bool_decide_ext. split; by intros ->.
Qed.

Lemma same_row_equal_on (cols : list string) (r r' : gmap string cell) :
  equal_on cols r r' → same_row cols r r' = true.
Proof.
  intros Heq. unfold same_row. apply forallb_forall. intros c Hc.
  apply bool_decide_eq_true. apply Heq. by apply list_elem_of_In.
Qed.

Lemma drop_dup_rows_distinct (cols : list string) (l : list (nat * gmap string cell))
    (seen : list (gmap string cell)) :
  (∀ x s, x ∈ drop_dup_rows cols seen l → s ∈ seen → same_row cols x.2 s = false)
  ∧ (∀ x y, x ∈ drop_dup_rows cols seen l → y ∈ drop_dup_rows cols seen l →
       same_row cols x.2 y.2 = true → x = y).
Proof.
  revert seen. induction l as [|ir l IH]; intros seen; cbn [drop_dup_rows].
  - split; intros; by match goal with H : _ ∈ [] |- _ => apply elem_of_nil in H end.
  - destruct (existsb (same_row cols ir.2) seen) eqn:Hex; [apply IH|].
    destruct (IH (ir.2 :: seen)) as [IHseen IHpair].
    assert (Hir : ∀ s, s ∈ seen → same_row cols ir.2 s = false).
    { intros s Hs. destruct (same_row cols ir.2 s) eqn:Hsame; [|done].
      assert (existsb (same_row cols ir.2) seen = true); [|congruence].
      apply existsb_exists. exists s. split; [by apply list_elem_of_In|done]. }
    split.
    + intros x s [->|Hx]%elem_of_cons Hs; [by apply Hir|].
      apply IHseen; [done|]. by right.
    + intros x y [->|Hx]%elem_of_cons [->|Hy]%elem_of_cons Hsame; [done| | |by apply IHpair].
      * rewrite same_row_sym in Hsame.
        rewrite (IHseen y ir.2 Hy) in Hsame by (by left). done.
      * rewrite (IHseen x ir.2 Hx) in Hsame by (by left). done.
Qed.

Section duplicates.
Context {pd : Pandas}.

Lemma numeric_value_rows (d : DataFrame) (i : nat) (a : gmap string cell) :
  (i, a) ∈ rows (numeric_value (in_range (converted d))) →
  ∃ r0, (i, r0) ∈ rows d ∧ a = typed_row d r0.
Proof.
  unfold numeric_value. cbn [rows setitem]. rewrite set_cells_column.
  intros ([j a1] & Heq & Hin)%list_elem_of_fmap. injection Heq as -> ->.
  unfold in_range in Hin. rewrite mask_column_rows in Hin.
  apply list_elem_of_filter in Hin as [_ Hin].
  unfold converted in Hin. cbn [rows setitem] in Hin.
  rewrite set_cells_column in Hin.
  apply list_elem_of_fmap in Hin as ([k r0] & Heq & Hin). injection Heq as -> ->.
  by exists r0.
Qed.

Lemma typed_row_equal_on (d : DataFrame) (cols : list string)
    (r r' : gmap string cell) :
  "period" ∈ cols → "value" ∈ cols →
  equal_on cols r r' → equal_on cols (typed_row d r) (typed_row d r').
Proof.
  intros Hp Hv Heq c Hc. unfold typed_row. cbv zeta.
  destruct (decide (c = "value")) as [->|Hcv].
  - rewrite !lookup_total_insert_eq.
    rewrite !(lookup_total_insert_ne _ "period" "value") by done.
    by rewrite (Heq "value" Hv).
  - rewrite !(lookup_total_insert_ne _ "value" c) by done.
    destruct (decide (c = "period")) as [->|Hcp].
    + rewrite !lookup_total_insert_eq. by rewrite (Heq "period" Hp).
    + rewrite !(lookup_total_insert_ne _ "period" c) by done. by apply Heq.
Qed.

Lemma names_numeric_value (d : DataFrame) :
  has_column "value" d = true → names (numeric_value d) = names d.
Proof.
  intros Hv%bool_decide_eq_true. unfold numeric_value, names. cbn [columns setitem].
  by apply names_set_dtype_in.
Qed.

(** From the table without duplicates to the working table. *)
Lemma working_table_after_dedupe (c0 : string) (d ws : DataFrame) :
  c0 ∉ ["area-name"; "product-name"; "process-name"] →
  working_table d = Return ws →
  has_column "period" d = true
  ∧ has_column "value" d = true
  ∧ rows_from (keeps c0)
      (drop_duplicates (numeric_value (in_range (converted d)))) ws.
Proof.
  unfold working_table. intros Hc0.
  destruct (has_column "period" d) eqn:Hp; [|done].
  rewrite has_column_in_range_converted by done.
  destruct (has_column "value" d); [|done].
  cbv zeta.
  set (d2 := drop_duplicates (numeric_value (in_range (converted d)))).
  set (d3 := fillna_median (select_number d2) d2).
  destruct (fill_modes _ d3) as [e|d4] eqn:Hmodes; [done|].
  intros Htext. split; [done|]. split; [done|].
  eapply rows_from_trans; [apply rows_from_fillna_median|].
  eapply rows_from_trans; [by eapply rows_from_fill_modes|].
  by eapply rows_from_format_text.
Qed.

End duplicates.

(** C5, as the code has it.  Duplicates are removed once, at line 84, from
    the rows as they are after the type conversions.  So of two input rows
    (distinct labels [i] and [j]) that are equal on every column, at most
    one has a record in the returned table. *)
Theorem clean_equal_rows_at_most_once {pd : Pandas}
    (w w' : world) (l l' : ref) (d : DataFrame)
    (i j : nat) (r r' : gmap string cell) :
  heap w !! l = Some d →
  NoDup (rows d).*1 →
  (i, r) ∈ rows d → (j, r') ∈ rows d → i ≠ j →
  equal_on (names d) r r' →
  clean_petroleum_data l w = (Return l', w') →
  ∃ out,
    heap w' !! l' = Some out
    ∧ ¬ (i ∈ (rows out).*1 ∧ j ∈ (rows out).*1).
Proof.
  intros Hl Hnodup Hi Hj Hij Heq Hres.
  destruct (clean_returns _ _ _ _ _ Hl Hres) as (ws & Hws & -> & ->).
  eexists. split; [apply clean_world_lookup|].
  intros [Hiout Hjout].
  destruct (working_table_after_dedupe "period" d ws) as (Hp & Hv & Hfrom); [|done|].
  { rewrite !not_elem_of_cons. repeat split; [done..|apply not_elem_of_nil]. }
  set (d1 := numeric_value (in_range (converted d))) in *.
  assert (Hlabel : ∀ k r0, (k, r0) ∈ rows d →
            k ∈ (rows (map_duoarea (map_product (without_outliers ws)))).*1 →
            (k, typed_row d r0) ∈ rows (drop_duplicates d1)).
  { intros k r0 Hk Hkout.
    apply (rows_from_labels _ _ _ _ (cleaned_rows "period" ws ltac:(done) ltac:(done)))
      in Hkout.
    apply (rows_from_labels _ _ _ _ Hfrom) in Hkout.
    apply list_elem_of_fmap in Hkout as ([k' a] & -> & Hin). cbn [fst] in *.
    pose proof (elem_of_drop_dup_rows _ _ _ _ Hin) as Hin1.
    apply numeric_value_rows in Hin1 as (r0' & Hin0 & ->).
    by rewrite (NoDup_fst_functional _ _ _ _ Hnodup Hk Hin0). }
  pose proof (Hlabel i r Hi Hiout) as Hi2.
  pose proof (Hlabel j r' Hj Hjout) as Hj2.
  destruct (drop_dup_rows_distinct (names d1) (rows d1) []) as [_ Hpair].
  assert (Hsame : (i, typed_row d r) = (j, typed_row d r')); [|congruence].
  apply Hpair; [done|done|]. cbn [snd].
  apply same_row_equal_on.
  assert (Hnames : names d1 = names d).
  { unfold d1. rewrite names_numeric_value
      by (by rewrite has_column_in_range_converted).
    change (names (in_range (converted d))) with (names (converted d)).
    by apply names_converted. }
  rewrite Hnames.
  apply typed_row_equal_on; [by apply bool_decide_eq_true in Hp
                            |by apply bool_decide_eq_true in Hv|done].
Qed.

Lemma clean_equal_rows_at_most_once_witness :
  let w := world_of [repeated_row_input] unavailable in
  ∃ out,
    heap (clean_petroleum_data (pd := pandas_ascii) 0 w).2 !! 2%nat = Some out
    ∧ ¬ (0%nat ∈ (rows out).*1 ∧ 1%nat ∈ (rows out).*1).
Proof.
  cbv zeta.
  apply (clean_equal_rows_at_most_once (pd := pandas_ascii)
           (world_of [repeated_row_input] unavailable) _ 0%nat 2%nat repeated_row_input
           0%nat 1%nat
           (list_to_map (reverse (raw_record "2020" "3.0" "EPMR" "NUS")))
           (list_to_map (reverse (raw_record "2020" "3.0" "EPMR" "NUS")))).
  - reflexivity.
  - apply (bool_decide_unpack _). vm_compute. exact I.
  - apply (bool_decide_unpack _). vm_compute. exact I.
  - apply (bool_decide_unpack _). vm_compute. exact I.
  - lia.
  - intros c _. reflexivity.
  - apply run_eta. vm_compute. reflexivity.
Defined.

(** The claim C5 as stated fails: two input rows that differ only in
    their region code, neither code being in the lookup table, pass the
    removal of duplicates (they are different rows) and then both get the
    region "Unknown": the returned table holds the same record twice. *)
Lemma clean_distinct_rows_become_equal :
  let res := clean_petroleum_data (pd := pandas_ascii) 0
               (world_of [unknown_regions_input] unavailable) in
  let out := heap res.2 !!! 2%nat in
  let record : gmap string cell :=
    list_to_map [("period", Timestamp 2020 1 1); ("value", Num (nearest 3 1));
                 ("product", Str "Regular Gasoline"); ("duoarea", Str "Unknown")] in
  res.1 = Return 2%nat
  ∧ column "duoarea" unknown_regions_input = [Str "R98"; Str "R99"]
  ∧ rows out = [(0%nat, record); (1%nat, record)].
Proof.
  cbv zeta. refine (conj _ (conj _ _)).
  - vm_compute. reflexivity.
  - vm_compute. reflexivity.
  - apply (bool_decide_unpack _). vm_compute. exact I.
Qed.

(** ** The persisted artifact *)

(** Whenever clean_petroleum_data returns, the file at the processed-data
    location is the CSV rendering of the returned table, header line
    included, whether the table is empty or not: line 135 has written it
    before the test of line 136, and touch leaves an existing file as it
    is. *)
Lemma clean_persists_csv {pd : Pandas} (w w' : world) (l l' : ref) (d : DataFrame) :
  heap w !! l = Some d →
  clean_petroleum_data l w = (Return l', w') →
  ∃ out,
    heap w' !! l' = Some out
    ∧ files w' !! processed_csv = Some (Text (csv_lines out))
    ∧ csv_lines out ≠ [].
Proof.
  intros Hl Hres.
  destruct (clean_returns _ _ _ _ _ Hl Hres) as (ws & Hws & -> & ->).
  eexists. split; [apply clean_world_lookup|]. split; [|done].
  unfold clean_world. cbn [files with_files]. apply lookup_insert_eq.
Qed.

(** C8 (failing input).  The single row period "2025", value "abc": the
    value does not parse, the median of the column is NaN, nothing is
    imputed, the quartiles are NaN and the outlier filter drops the row.
    The function returns an empty table and the file it leaves is the
    header line, not a zero-byte file. *)
Theorem clean_empty_result_leaves_header_only_file :
  let res := clean_petroleum_data (pd := pandas_ascii) 0
               (world_of [unparseable_value_input] unavailable) in
  let out := heap res.2 !!! 2%nat in
  res.1 = Return 2%nat
  ∧ rows out = []
  ∧ empty out = true
  ∧ files res.2 !! processed_csv
    = Some (Text [[Str "period"; Str "value"; Str "product"; Str "duoarea"]])
  ∧ files res.2 !! processed_csv ≠ Some (Text []).
Proof.
  cbv zeta. refine (conj _ (conj _ (conj _ (conj _ _)))); try (vm_compute; reflexivity).
  vm_compute. discriminate.
Qed.

(** ** Zero rows from the service *)

(** C7 (failing input).  The service answers 200 with an empty data array.
    fetch_petroleum_data writes the raw artifact (the CSV of a table
    without columns and rows) and returns a table without columns; clean_petroleum_data then fails at its
    first statement with KeyError('period'), so [main] raises and no cleaned
    artifact is written. *)
Theorem main_raises_on_zero_rows {pd : Pandas} {plotly : Plotly} {sns : Seaborn} :
  let w := world_of [] no_rows in
  (fetch_petroleum_data "key" w).1 = Return 1%nat
  ∧ heap (fetch_petroleum_data "key" w).2 !! 1%nat = Some DataFrame_empty
  ∧ files (fetch_petroleum_data "key" w).2 !! raw_csv
    = Some (Text (csv_lines DataFrame_empty))
  ∧ (main w).1 = Raise (KeyError (KStr "period"))
  ∧ files (main w).2 !! processed_csv = None.
Proof.
  cbv zeta. refine (conj _ (conj _ (conj _ (conj _ _)))); vm_compute; reflexivity.
Qed.

(** ** fetch_petroleum_data *)

Lemma fetch_run (w : world) (api_key : string) :
  let response := network w (fetch_request api_key) in
  fetch_petroleum_data api_key w
  = if decide (status_code response ≠ 200%Z) then
      (Raise (RuntimeError (status_code response)), w)
    else
      match json_data (content response) with
      | Raise e => (Raise e, w)
      | Return data =>
          match DataFrame_of data with
          | Raise e => (Raise e, w)
          | Return d =>
              let w1 :=
                with_files (<[raw_csv := Text (csv_lines d)]> (files w))
                  (with_dirs (list_to_set ["data"; "data/raw"] ∪ dirs w)
                     (with_heap (heap w ++ [d]) w)) in
              if truthy data then (Return (length (heap w)), w1)
              else (Return (S (length (heap w))),
                    with_heap (heap w ++ [d; DataFrame_empty]) w1)
          end
      end.
Proof.
  cbv zeta. unfold fetch_petroleum_data, bind at 1, requests_get at 1.
  destruct (decide (status_code (network w (fetch_request api_key)) ≠ 200%Z)); [done|].
  unfold bind at 1.
  destruct (json_data (content (network w (fetch_request api_key)))) as [e|data]; [done|].
  unfold bind at 1.
  destruct (DataFrame_of data) as [e|d]; [done|].
  unfold bind at 1, new at 1.
  unfold bind at 1, mkdir at 1.
  unfold bind at 1, to_csv at 1, bind at 1, deref at 1.
  cbn [heap with_heap with_dirs].
  rewrite list_lookup_total_middle by done.
  unfold write_file at 1.
  unfold bind at 1, deref at 1. cbn [heap with_heap with_dirs with_files].
  rewrite list_lookup_total_middle by done.
  assert (Hfile : ∀ w2 : world,
    files w2 !! raw_csv = Some (Text (csv_lines d)) → heap w2 !!! length (heap w) = d →
    (if negb (empty d) then to_csv (length (heap w)) raw_csv else touch raw_csv) w2
    = (Return tt, w2)).
  { intros w2 Hf Hd. destruct (empty d); cbn [negb].
    - unfold touch. by rewrite Hf.
    - unfold to_csv, bind, deref, write_file. rewrite Hd.
      rewrite insert_id by done. by destruct w2. }
  unfold bind at 1. rewrite Hfile.
  - destruct (truthy data); [done|]. unfold new. cbn [heap with_heap].
    f_equal.
    + cbn [heap with_files with_dirs with_heap].
      by rewrite length_app, Nat.add_1_r.
    + unfold with_heap, with_files, with_dirs. cbn. by rewrite <- app_assoc.
  - cbn [files with_files]. apply lookup_insert_eq.
  - cbn [heap with_files with_dirs with_heap]. by apply list_lookup_total_middle.
Qed.

(** C9.  fetch_petroleum_data fails with the RuntimeError that carries the
    status code exactly when the status of the response is not 200 (the
    success status of the code), and then it has changed nothing.  On
    status 200 with an envelope whose data array is absent or empty it
    returns a new empty table, after writing the raw artifact. *)
Theorem fetch_error_iff_status_not_200 (w : world) (api_key : string) :
  let response := network w (fetch_request api_key) in
  (∀ s w',
     fetch_petroleum_data api_key w = (Raise (RuntimeError s), w')
     ↔ status_code response ≠ 200%Z ∧ s = status_code response ∧ w' = w)
  ∧ (status_code response = 200%Z →
     content response ∈ [JsonDict ResponseAbsent;
                         JsonDict (ResponseDict DataAbsent);
                         JsonDict (ResponseDict (DataRows []))] →
     ∃ l' w',
       fetch_petroleum_data api_key w = (Return l', w')
       ∧ heap w' !! l' = Some DataFrame_empty
       ∧ is_Some (files w' !! raw_csv)).
Proof.
  cbv zeta. pose proof (fetch_run w api_key) as Hrun. cbv zeta in Hrun.
  set (response := network w (fetch_request api_key)) in *.
  split.
  - intros s w'. rewrite Hrun.
    destruct (decide (status_code response ≠ 200%Z)) as [Hne|Heq].
    + split.
      * intros [= <- <-]. done.
      * intros (_ & -> & ->). done.
    + split; [|by intros [? _]].
      destruct (json_data (content response)) as [e|data] eqn:Hdata.
      * intros [= He _]. destruct (content response) as [| |[| |[]]]; cbn in Hdata;
          congruence.
      * destruct (DataFrame_of data) as [e|d] eqn:Hframe.
        -- intros [= He _]. destruct data as [| | | | |[]]; cbn in Hframe; congruence.
        -- by destruct (truthy data).
  - intros Hok Hbody. rewrite Hrun.
    rewrite decide_False by (by intros ?).
    assert (Hdata : json_data (content response) = Return (PyList [])).
    { repeat (apply elem_of_cons in Hbody as [->|Hbody]; [done|]).
      by apply elem_of_nil in Hbody. }
    rewrite Hdata. cbn [DataFrame_of truthy bool_decide decide_rel negb].
    eexists _, _. split; [done|]. cbn [heap files with_heap with_files with_dirs].
    split.
    + change (heap w ++ [DataFrame_of_records (Some []); DataFrame_empty])
        with (heap w ++ [DataFrame_empty] ++ [DataFrame_empty]).
      rewrite app_assoc.
      replace (S (length (heap w))) with (length (heap w ++ [DataFrame_empty]))
        by (rewrite length_app; cbn; lia).
      by apply list_lookup_middle.
    + rewrite lookup_insert_eq. by eexists.
Qed.

Lemma fetch_error_iff_status_not_200_witness :
  let w := world_of [] no_rows in
  (∀ s w',
     fetch_petroleum_data "key" w = (Raise (RuntimeError s), w')
     ↔ status_code no_rows ≠ 200%Z ∧ s = status_code no_rows ∧ w' = w)
  ∧ ∃ l' w',
      fetch_petroleum_data "key" w = (Return l', w')
      ∧ heap w' !! l' = Some DataFrame_empty
      ∧ is_Some (files w' !! raw_csv).
Proof.
  cbv zeta.
  destruct (fetch_error_iff_status_not_200 (world_of [] no_rows) "key") as [Hiff Hempty].
  split; [exact Hiff|].
  apply Hempty.
  - reflexivity.
  - cbn. do 2 apply list_elem_of_further. apply list_elem_of_here.
Defined.

(** The claim C9 as stated fails for the success statuses other than 200:
    the code compares the status with 200 only.  An answer 204 No Content
    raises the RuntimeError of 204, and an answer 203 whose envelope has an
    empty data array raises the RuntimeError of 203 instead of returning an
    empty table; nothing is written in either case. *)
Lemma fetch_raises_on_success_status_other_than_200 :
  http_success (status_code no_content) = true
  ∧ http_success (status_code non_authoritative) = true
  ∧ fetch_petroleum_data "key" (world_of [] no_content)
    = (Raise (RuntimeError 204), world_of [] no_content)
  ∧ fetch_petroleum_data "key" (world_of [] non_authoritative)
    = (Raise (RuntimeError 203), world_of [] non_authoritative).
Proof.
  refine (conj _ (conj _ (conj _ _))).
  - vm_compute. reflexivity.
  - vm_compute. reflexivity.
  - rewrite fetch_run. cbv zeta. by rewrite decide_True.
  - rewrite fetch_run. cbv zeta. by rewrite decide_True.
Qed.

(** ** create_all_charts *)

Lemma extends_heap_ret {A} (a : A) : extends_heap (ret a).
Proof. intros w. exists []. by rewrite app_nil_r. Qed.

Lemma extends_heap_raise {A} (e : exn) : extends_heap (raise e : M A).
Proof. intros w. exists []. by rewrite app_nil_r. Qed.

Lemma extends_heap_deref (r : ref) : extends_heap (deref r).
Proof. intros w. exists []. by rewrite app_nil_r. Qed.

Lemma extends_heap_new (d : DataFrame) : extends_heap (new d).
Proof. intros w. by exists [d]. Qed.

Lemma extends_heap_write_file (path : string) (f : file) :
  extends_heap (write_file path f).
Proof. intros w. exists []. by rewrite app_nil_r. Qed.

Lemma extends_heap_print (line : string) : extends_heap (print line).
Proof. intros w. exists []. by rewrite app_nil_r. Qed.

Lemma extends_heap_bind {A B} (p : M A) (k : A → M B) :
  extends_heap p → (∀ a, extends_heap (k a)) → extends_heap (bind p k).
Proof.
  intros Hp Hk w. unfold bind. destruct (Hp w) as [ext Hext].
  destruct (p w) as [[e|a] w1]; cbn in *.
  - by exists ext.
  - destruct (Hk a w1) as [ext' Hext']. exists (ext ++ ext').
    by rewrite Hext', Hext, app_assoc.
Qed.

Lemma extends_heap_getitem (r : ref) (c : string) : extends_heap (getitem r c).
Proof.
  apply extends_heap_bind; [apply extends_heap_deref|]. intros d.
  destruct (has_column c d); [apply extends_heap_ret|apply extends_heap_raise].
Qed.

Lemma set_cells_other (c c' : string) (vals : list cell)
    (l : list (nat * gmap string cell)) :
  c' ≠ c → length vals = length l →
  (λ ir, ir.2 !!! c') <$> set_cells c vals l = (λ ir, ir.2 !!! c') <$> l.
Proof.
  intros Hne. unfold set_cells. revert vals.
  induction l as [|[i r] l IH]; intros [|v vals] Hlen; try done.
  cbn. rewrite lookup_total_insert_ne by done. f_equal. apply IH. by injection Hlen.
Qed.

Lemma set_cells_same (c : string) (vals : list cell)
    (l : list (nat * gmap string cell)) :
  length vals = length l →
  (λ ir, ir.2 !!! c) <$> set_cells c vals l = vals.
Proof.
  unfold set_cells. revert vals.
  induction l as [|[i r] l IH]; intros [|v vals] Hlen; try done.
  cbn. rewrite lookup_total_insert_eq. f_equal. apply IH. by injection Hlen.
Qed.

Lemma set_cells_labels (c : string) (vals : list cell)
    (l : list (nat * gmap string cell)) :
  length vals = length l → (set_cells c vals l).*1 = l.*1.
Proof.
  unfold set_cells. revert vals.
  induction l as [|[i r] l IH]; intros [|v vals] Hlen; try done.
  cbn. f_equal. apply IH. by injection Hlen.
Qed.

Section charts.
Context {pd : Pandas} {plotly : Plotly}.

Lemma extends_heap_px (call : px_call) (r : ref) : extends_heap (px call r).
Proof.
  apply extends_heap_bind; [apply extends_heap_deref|]. intros d.
  destruct (px_validate call d); [apply extends_heap_raise|apply extends_heap_ret].
Qed.

(** Closes [extends_heap] goals on programs made of reads, allocations,
    charts and file writes. *)
Ltac extends_heap_steps :=
  repeat first
    [ apply extends_heap_getitem
    | apply extends_heap_px
    | apply extends_heap_deref
    | apply extends_heap_new
    | apply extends_heap_write_file
    | apply extends_heap_print
    | apply extends_heap_bind
    | match goal with
      | |- ∀ _, extends_heap _ => intros ?
      | |- extends_heap (if ?b then _ else _) => destruct b
      end ].

Lemma px_run (call : px_call) (w : world) (r : ref) (d : DataFrame) :
  heap w !! r = Some d →
  px call r w
  = match px_validate call d with
    | Some e => (Raise e, w)
    | None => (Return (mkFigure call d None), w)
    end.
Proof.
  intros Hr. unfold px, bind. rewrite (deref_run _ _ _ Hr).
  by destruct (px_validate call d).
Qed.

(** Up to line 76. *)
Lemma create_all_charts_run (w : world) (df : ref) (d : DataFrame) :
  heap w !! df = Some d →
  ∃ res w',
    create_all_charts df w = (res, w')
    ∧ heap w' !! df
      = Some (match px_validate scatter_prices d, px_validate price_trend d with
              | None, None =>
                  if has_column "period" d then
                    match to_datetime_raise (column "period" d) with
                    | Some dates => setitem "year" object (year_strs dates) d
                    | None => d
                    end
                  else d
              | _, _ => d
              end).
Proof.
  intros Hdf. unfold create_all_charts, bind at 1, mkdir at 1.
  set (w1 := with_dirs _ w).
  assert (H1 : heap w1 !! df = Some d) by done.
  unfold bind at 1. rewrite (px_run _ _ _ _ H1).
  destruct (px_validate scatter_prices d); [by eexists _, _|].
  unfold bind at 1, write_html at 1, write_file at 1.
  set (w2 := with_files _ w1).
  assert (H2 : heap w2 !! df = Some d) by done.
  unfold bind at 1. rewrite (px_run _ _ _ _ H2).
  destruct (px_validate price_trend d); [by eexists _, _|].
  unfold bind at 1, write_html at 1, write_file at 1.
  set (w3 := with_files _ w2).
  assert (H3 : heap w3 !! df = Some d) by done.
  unfold bind at 1. rewrite (getitem_run _ _ _ _ H3).
  destruct (has_column "period" d); [|by eexists _, _].
  unfold bind at 1.
  destruct (to_datetime_raise (column "period" d)) as [dates|]; [|by eexists _, _].
  unfold ret at 1. unfold bind at 1. rewrite (update_run _ _ _ _ H3).
  set (w4 := with_heap _ w3).
  match goal with
  | |- ∃ res w', ?rest w4 = _ ∧ _ =>
      assert (Hrest : extends_heap rest)
        by (unfold write_html; extends_heap_steps);
      destruct (Hrest w4) as [ext Hext];
      destruct (rest w4) as [res w5]
  end.
  cbn [snd] in Hext.
  exists res, w5. split; [done|]. rewrite Hext.
  apply lookup_app_l_Some. subst w4. cbn [heap with_heap].
  by apply (lookup_heap_insert _ _ d).
Qed.

End charts.

(** C10, as the code has it.  When the two charts drawn first are built
    and the period column converts to dates, create_all_charts leaves the
    caller's table with a 'year' column (added at the end, or overwritten
    where it stood) holding the year of each period as text; the labels of
    the rows and every other column are unchanged.  This holds whether or
    not a later chart fails. *)
Theorem create_all_charts_sets_year_column {pd : Pandas} {plotly : Plotly}
    (w : world) (df : ref) (d : DataFrame) (dates : list cell) :
  heap w !! df = Some d →
  px_validate scatter_prices d = None →
  px_validate price_trend d = None →
  has_column "period" d = true →
  to_datetime_raise (column "period" d) = Some dates →
  ∃ res w' d',
    create_all_charts df w = (res, w')
    ∧ heap w' !! df = Some d'
    ∧ column "year" d' = year_strs dates
    ∧ (∀ c, c ≠ "year" → column c d' = column c d)
    ∧ (rows d').*1 = (rows d).*1
    ∧ names d' = (if has_column "year" d then names d else names d ++ ["year"]).
Proof.
  intros Hdf Hfig1 Hfig2 Hp Hdates.
  destruct (create_all_charts_run w df d Hdf) as (res & w' & Hrun & Hheap).
  rewrite Hfig1, Hfig2, Hp, Hdates in Hheap.
  exists res, w', (setitem "year" object (year_strs dates) d).
  split; [done|]. split; [done|].
  assert (Hlen : length (year_strs dates) = length (rows d)).
  { unfold year_strs. rewrite length_fmap. apply length_mapM in Hdates.
    rewrite <- Hdates.
    unfold column. by rewrite length_fmap. }
  split; [by apply set_cells_same|].
  split; [intros c Hc; by apply set_cells_other|].
  split; [by apply set_cells_labels|].
  unfold names, has_column. cbn [columns setitem]. case_bool_decide.
  - by apply names_set_dtype_in.
  - by apply names_set_dtype_notin.
Qed.

Lemma create_all_charts_sets_year_column_witness :
  let w := world_of [charts_input] unavailable in
  ∃ res w' d',
    create_all_charts (pd := pandas_ascii) (plotly := plotly_columns) 0 w = (res, w')
    ∧ heap w' !! 0%nat = Some d'
    ∧ column "year" d' = year_strs [Timestamp 2024 1 1]
    ∧ (∀ c, c ≠ "year" → column c d' = column c charts_input)
    ∧ (rows d').*1 = (rows charts_input).*1
    ∧ names d' = (if has_column "year" charts_input
                  then names charts_input else names charts_input ++ ["year"]).
Proof.
  cbv zeta.
  apply (create_all_charts_sets_year_column (pd := pandas_ascii) (plotly := plotly_columns)
           (world_of [charts_input] unavailable) 0%nat charts_input
           [Timestamp 2024 1 1]).
  - reflexivity.
  - vm_compute. reflexivity.
  - vm_compute. reflexivity.
  - vm_compute. reflexivity.
  - vm_compute. reflexivity.
Defined.

(** A table without a period column is left as it is, whatever plotly
    accepts: the function raises at one of the first two charts or at
    [df['period']]. *)
Lemma create_all_charts_without_period {pd : Pandas} {plotly : Plotly}
    (w : world) (df : ref) (d : DataFrame) :
  heap w !! df = Some d →
  has_column "period" d = false →
  ∃ res w', create_all_charts df w = (res, w') ∧ heap w' !! df = Some d.
Proof.
  intros Hdf Hp.
  destruct (create_all_charts_run w df d Hdf) as (res & w' & Hrun & Hheap).
  exists res, w'. split; [done|]. rewrite Hheap, Hp.
  by destruct (px_validate scatter_prices d), (px_validate price_trend d).
Qed.

(** The claim C10 as stated fails: not every input table gets the column.
    The record of the specification's scenario (period, value, product,
    duoarea) has no 'product-name' column: the first chart is refused, the
    function raises before line 76 and the caller's table is unchanged,
    without a 'year' column. *)
Lemma create_all_charts_may_not_reach_year :
  let w := world_of [scenario_output] unavailable in
  let res := create_all_charts (pd := pandas_ascii) (plotly := plotly_columns) 0 w in
  res.1 = Raise ValueError
  ∧ heap res.2 = [scenario_output]
  ∧ has_column "year" scenario_output = false.
Proof.
  cbv zeta. refine (conj _ (conj _ _)).
  - vm_compute. reflexivity.
  - apply (bool_decide_unpack _). vm_compute. exact I.
  - vm_compute. reflexivity.
Qed.

(** * Further properties of the code *)

(** ** What clean_petroleum_data does to the world *)

Lemma length_column (c : string) (d : DataFrame) : length (column c d) = length (rows d).
Proof. unfold column. by rewrite length_fmap. Qed.

Lemma clean_world_lookup_caller {pd : Pandas} (w : world) (l : ref) (d ws out : DataFrame) :
  heap w !! l = Some d →
  heap (clean_world w l d ws out) !! l = Some (converted d).
Proof.
  intros Hl. unfold clean_world. cbn [heap with_files with_dirs with_heap].
  apply lookup_app_l_Some. by apply (lookup_heap_insert _ _ d).
Qed.

(** X1.  A returning run of clean_petroleum_data has changed the caller's
    table in place: its period column now holds the converted dates (NaT
    where the conversion failed), every other column, the labels of the rows
    and the column names being as before; the returned table is another
    object. *)
Theorem clean_converts_period_of_callers_table {pd : Pandas}
    (w w' : world) (l l' : ref) (d : DataFrame) :
  heap w !! l = Some d →
  clean_petroleum_data l w = (Return l', w') →
  l' ≠ l
  ∧ ∃ d',
      heap w' !! l = Some d'
      ∧ column "period" d'
        = to_datetime_coerce (column "period" d) <$> column "period" d
      ∧ (∀ c, c ≠ "period" → column c d' = column c d)
      ∧ (rows d').*1 = (rows d).*1
      ∧ names d' = names d.
Proof.
  intros Hl Hres.
  destruct (clean_returns _ _ _ _ _ Hl Hres) as (ws & Hws & -> & ->).
  split; [apply lookup_lt_Some in Hl; lia|].
  exists (converted d). split; [by apply clean_world_lookup_caller|].
  destruct (working_table_after_dedupe "period" d ws) as (Hp & _ & _); [|done|].
  { rewrite !not_elem_of_cons. repeat split; [done..|apply not_elem_of_nil]. }
  split; [apply column_converted|].
  assert (Hlen : length (to_datetime_coerce (column "period" d) <$> column "period" d)
                 = length (rows d)) by (by rewrite length_fmap, length_column).
  split; [intros c Hc; by apply set_cells_other|].
  split; [by apply set_cells_labels|by apply names_converted].
Qed.

Lemma clean_converts_period_of_callers_table_witness :
  let w := world_of [two_periods_input] unavailable in
  2%nat ≠ 0%nat
  ∧ ∃ d',
      heap (clean_petroleum_data (pd := pandas_ascii) 0 w).2 !! 0%nat = Some d'
      ∧ column "period" d'
        = to_datetime_coerce (pd := pandas_ascii) (column "period" two_periods_input)
            <$> column "period" two_periods_input
      ∧ (∀ c, c ≠ "period" → column c d' = column c two_periods_input)
      ∧ (rows d').*1 = (rows two_periods_input).*1
      ∧ names d' = names two_periods_input.
Proof.
  cbv zeta.
  apply (clean_converts_period_of_callers_table (pd := pandas_ascii)
           (world_of [two_periods_input] unavailable) _ 0%nat 2%nat two_periods_input).
  - reflexivity.
  - apply run_eta. vm_compute. reflexivity.
Defined.

(** X10.  A returning run of clean_petroleum_data writes one file, the
    processed CSV, and leaves every other file as it was; it creates the
    directories data and data/processed, prints nothing, and adds two
    objects to the store (the working table and the returned table). *)
Theorem clean_writes_only_processed_csv {pd : Pandas}
    (w w' : world) (l l' : ref) (d : DataFrame) :
  heap w !! l = Some d →
  clean_petroleum_data l w = (Return l', w') →
  (∀ path, path ≠ processed_csv → files w' !! path = files w !! path)
  ∧ dirs w' = {["data"; "data/processed"]} ∪ dirs w
  ∧ stdout w' = stdout w
  ∧ length (heap w') = (length (heap w) + 2)%nat.
Proof.
  intros Hl Hres.
  destruct (clean_returns _ _ _ _ _ Hl Hres) as (ws & Hws & -> & ->).
  unfold clean_world. cbn [heap files dirs stdout with_files with_dirs with_heap].
  split; [intros path Hpath; by rewrite lookup_insert_ne|].
  split; [cbn; f_equal; set_solver|].
  split; [done|]. rewrite length_app, length_insert. cbn. lia.
Qed.

Lemma clean_writes_only_processed_csv_witness :
  let w := world_of [scenario_input] unavailable in
  let w' := (clean_petroleum_data (pd := pandas_ascii) 0 w).2 in
  (∀ path, path ≠ processed_csv → files w' !! path = files w !! path)
  ∧ dirs w' = {["data"; "data/processed"]} ∪ dirs w
  ∧ stdout w' = stdout w
  ∧ length (heap w') = (length (heap w) + 2)%nat.
Proof.
  cbv zeta.
  apply (clean_writes_only_processed_csv (pd := pandas_ascii)
           (world_of [scenario_input] unavailable) _ 0%nat 2%nat scenario_input).
  - reflexivity.
  - apply run_eta. vm_compute. reflexivity.
Defined.

(** ** Columns and labels of the returned table *)

Lemma labels_set_cells_column (c c' : string) (f : cell → cell) (d : DataFrame) :
  (set_cells c (f <$> column c' d) (rows d)).*1 = (rows d).*1.
Proof. apply set_cells_labels. by rewrite length_fmap, length_column. Qed.

Lemma mask_rows_sublist {A} (l : list A) (mask : list bool) :
  mask_rows l mask `sublist_of` l.
Proof.
  revert mask. induction l as [|x l IH]; intros [|b mask]; cbn;
    try apply sublist_nil_l.
  destruct b; [by apply sublist_skip|by apply sublist_cons].
Qed.

Lemma drop_dup_rows_sublist (cols : list string) (seen : list (gmap string cell))
    (l : list (nat * gmap string cell)) :
  drop_dup_rows cols seen l `sublist_of` l.
Proof.
  revert seen. induction l as [|x l IH]; intros seen; cbn; [done|].
  destruct (existsb _ seen); [by apply sublist_cons|by apply sublist_skip].
Qed.

Lemma names_fillna_median (cols : list string) (d : DataFrame) :
  names (fillna_median cols d) = names d.
Proof. unfold fillna_median. induction cols as [|c cols IH]; [done|]. cbn. exact IH. Qed.

Lemma labels_fillna_median (cols : list string) (d : DataFrame) :
  (rows (fillna_median cols d)).*1 = (rows d).*1.
Proof.
  rewrite rows_fillna_median, <- list_fmap_compose. by apply list_fmap_ext.
Qed.

Lemma names_setitem_present (c : string) (dt : dtype) (vals : list cell) (d : DataFrame) :
  has_column c d = true → names (setitem c dt vals d) = names d.
Proof.
  intros Hc%bool_decide_eq_true. unfold names. cbn [columns setitem].
  by apply names_set_dtype_in.
Qed.

Section shape.
Context {pd : Pandas}.

Lemma fill_modes_shape (cols : list string) (d d' : DataFrame) :
  fill_modes cols d = Return d' →
  names d' = names d ∧ (rows d').*1 = (rows d).*1.
Proof.
  revert d. induction cols as [|c cols IH]; intros d; cbn [fill_modes].
  - by intros [= ->].
  - destruct (has_column c d); [|done].
    destruct (mode0 (column c d)) as [m|]; [|done].
    intros [Hn Hl]%IH. split; [done|].
    rewrite Hl. cbn [rows setitem_same]. apply labels_set_cells_column.
Qed.

Lemma format_text_shape (cols : list string) (d d' : DataFrame) :
  format_text cols d = Return d' →
  names d' = names d ∧ (rows d').*1 = (rows d).*1.
Proof.
  revert d. induction cols as [|c cols IH]; intros d; cbn [format_text].
  - by intros [= ->].
  - destruct (has_column c d) eqn:Hc; [|by apply IH].
    destruct (str_accessor_ok _ _); [|done].
    intros [Hn Hl]%IH. split.
    + rewrite Hn. by apply names_setitem_present.
    + rewrite Hl. cbn [rows setitem]. apply labels_set_cells_column.
Qed.

Lemma map_product_shape (d : DataFrame) :
  names (map_product d) = names d ∧ (rows (map_product d)).*1 = (rows d).*1.
Proof.
  unfold map_product. destruct (has_column "product" d); [|done].
  split; [done|]. cbn [rows setitem_same].
  rewrite fillna_with_fmap. apply labels_set_cells_column.
Qed.

Lemma map_duoarea_shape (d : DataFrame) :
  names (map_duoarea d) = names d ∧ (rows (map_duoarea d)).*1 = (rows d).*1.
Proof.
  unfold map_duoarea. destruct (has_column "duoarea" d) eqn:Ha; [|done].
  split; [by apply names_setitem_present|]. cbn [rows setitem].
  rewrite <- list_fmap_compose. apply labels_set_cells_column.
Qed.

(** The working table has the columns of the input and a sub-list of its
    rows. *)
Lemma working_table_shape (d ws : DataFrame) :
  working_table d = Return ws →
  names ws = names d ∧ (rows ws).*1 `sublist_of` (rows d).*1.
Proof.
  unfold working_table.
  destruct (has_column "period" d) eqn:Hp; [|done].
  destruct (has_column "value" (in_range (converted d))) eqn:Hv; [|done].
  cbv zeta.
  set (d1 := numeric_value (in_range (converted d))).
  set (d2 := drop_duplicates d1).
  set (d3 := fillna_median (select_number d2) d2).
  destruct (fill_modes _ d3) as [e|d4] eqn:Hmodes; [done|].
  intros Htext.
  apply fill_modes_shape in Hmodes as [Hn4 Hl4].
  apply format_text_shape in Htext as [Hn5 Hl5].
  assert (Hn1 : names d1 = names d).
  { unfold d1. rewrite names_numeric_value by done.
    change (names (in_range (converted d))) with (names (converted d)).
    by apply names_converted. }
  split.
  - rewrite Hn5, Hn4. unfold d3. by rewrite names_fillna_median.
  - rewrite Hl5, Hl4. unfold d3. rewrite labels_fillna_median.
    transitivity ((rows d1).*1).
    { apply fmap_sublist. apply drop_dup_rows_sublist. }
    unfold d1, numeric_value. cbn [rows setitem].
    rewrite labels_set_cells_column.
    transitivity ((rows (converted d)).*1).
    { apply fmap_sublist. apply mask_rows_sublist. }
    unfold converted. cbn [rows setitem]. by rewrite labels_set_cells_column.
Qed.

End shape.

(** X2.  clean_petroleum_data neither adds nor drops a column: the table
    it returns has the column names of the input, in the same order. *)
Theorem clean_keeps_column_names {pd : Pandas}
    (w w' : world) (l l' : ref) (d : DataFrame) :
  heap w !! l = Some d →
  clean_petroleum_data l w = (Return l', w') →
  ∃ out, heap w' !! l' = Some out ∧ names out = names d.
Proof.
  intros Hl Hres.
  destruct (clean_returns _ _ _ _ _ Hl Hres) as (ws & Hws & -> & ->).
  eexists. split; [apply clean_world_lookup|].
  destruct (working_table_shape d ws Hws) as [Hn _].
  destruct (map_duoarea_shape (map_product (without_outliers ws))) as [-> _].
  destruct (map_product_shape (without_outliers ws)) as [-> _].
  done.
Qed.

Lemma clean_keeps_column_names_witness :
  ∃ out,
    heap (clean_petroleum_data (pd := pandas_ascii) 0
            (world_of [far_outlier_input] unavailable)).2 !! 2%nat = Some out
    ∧ names out = names far_outlier_input.
Proof.
  apply (clean_keeps_column_names (pd := pandas_ascii)
           (world_of [far_outlier_input] unavailable) _ 0%nat 2%nat far_outlier_input).
  - reflexivity.
  - apply run_eta. vm_compute. reflexivity.
Defined.

(** X3.  clean_petroleum_data only removes rows: the labels of the
    returned table are a sub-list of the labels of the input, so the rows
    that remain keep their label and their order, and none is created. *)
Theorem clean_labels_sublist {pd : Pandas}
    (w w' : world) (l l' : ref) (d : DataFrame) :
  heap w !! l = Some d →
  clean_petroleum_data l w = (Return l', w') →
  ∃ out,
    heap w' !! l' = Some out
    ∧ (rows out).*1 `sublist_of` (rows d).*1
    ∧ (length (rows out) ≤ length (rows d))%nat.
Proof.
  intros Hl Hres.
  destruct (clean_returns _ _ _ _ _ Hl Hres) as (ws & Hws & -> & ->).
  eexists. split; [apply clean_world_lookup|].
  destruct (working_table_shape d ws Hws) as [_ Hsub].
  destruct (map_duoarea_shape (map_product (without_outliers ws))) as [_ Hl1].
  destruct (map_product_shape (without_outliers ws)) as [_ Hl2].
  assert (Hlabels : (rows (map_duoarea (map_product (without_outliers ws)))).*1
                    `sublist_of` (rows d).*1).
  { rewrite Hl1, Hl2. transitivity ((rows ws).*1); [|done].
    apply fmap_sublist. apply mask_rows_sublist. }
  split; [done|].
  apply sublist_length in Hlabels. by rewrite !length_fmap in Hlabels.
Qed.

Lemma clean_labels_sublist_witness :
  ∃ out,
    heap (clean_petroleum_data (pd := pandas_ascii) 0
            (world_of [far_outlier_input] unavailable)).2 !! 2%nat = Some out
    ∧ (rows out).*1 `sublist_of` (rows far_outlier_input).*1
    ∧ (length (rows out) ≤ length (rows far_outlier_input))%nat.
Proof.
  apply (clean_labels_sublist (pd := pandas_ascii)
           (world_of [far_outlier_input] unavailable) _ 0%nat 2%nat far_outlier_input).
  - reflexivity.
  - apply run_eta. vm_compute. reflexivity.
Defined.

(** X5.  In the table clean_petroleum_data returns, a duoarea column holds
    nothing but region names: every cell is one of the names of [area_map]
    or "Unknown", never a raw code and never a missing value. *)
Theorem clean_duoarea_is_a_region_name {pd : Pandas}
    (w w' : world) (l l' : ref) (d : DataFrame) :
  heap w !! l = Some d →
  clean_petroleum_data l w = (Return l', w') →
  ∃ out,
    heap w' !! l' = Some out
    ∧ (has_column "duoarea" out = true →
       ∀ i r, (i, r) ∈ rows out →
         r !!! "duoarea" = Str "Unknown"
         ∨ ∃ code name, area_map !! code = Some name ∧ r !!! "duoarea" = Str name).
Proof.
  intros Hl Hres.
  destruct (clean_returns _ _ _ _ _ Hl Hres) as (ws & Hws & -> & ->).
  eexists. split; [apply clean_world_lookup|].
  set (x := map_product (without_outliers ws)).
  intros Hcol i r Hin.
  assert (Hx : has_column "duoarea" x = true).
  { unfold has_column in *. by rewrite (proj1 (map_duoarea_shape x)) in Hcol. }
  rewrite rows_map_duoarea in Hin by done.
  apply list_elem_of_fmap in Hin as ([j r0] & [= -> ->] & _). cbn [snd].
  rewrite lookup_total_insert_eq.
  destruct (r0 !!! "duoarea") as [|code| |]; [by left| |by left|by left].
  cbn [map_dict]. destruct (area_map !! code) as [name|] eqn:Hcode; [|by left].
  right. by exists code, name.
Qed.

Lemma clean_duoarea_is_a_region_name_witness :
  ∃ out,
    heap (clean_petroleum_data (pd := pandas_ascii) 0
            (world_of [unknown_regions_input] unavailable)).2 !! 2%nat = Some out
    ∧ (has_column "duoarea" out = true →
       ∀ i r, (i, r) ∈ rows out →
         r !!! "duoarea" = Str "Unknown"
         ∨ ∃ code name, area_map !! code = Some name ∧ r !!! "duoarea" = Str name).
Proof.
  apply (clean_duoarea_is_a_region_name (pd := pandas_ascii)
           (world_of [unknown_regions_input] unavailable) _ 0%nat 2%nat
           unknown_regions_input).
  - reflexivity.
  - apply run_eta. vm_compute. reflexivity.
Defined.

(** ** Imputation *)

Lemma set_dtype_elem (c : string) (dt : dtype) (cols : list (string * dtype)) :
  (c, dt) ∈ set_dtype c dt cols.
Proof.
  induction cols as [|[c' dt'] cols IH]; cbn [set_dtype]; [by left|].
  case_decide; [by left|by right].
Qed.

Lemma set_dtype_elem_other (c c' : string) (dt dt' : dtype) (cols : list (string * dtype)) :
  c ≠ c' → (c, dt) ∈ cols → (c, dt) ∈ set_dtype c' dt' cols.
Proof.
  intros Hne. induction cols as [|[c0 dt0] cols IH]; cbn [set_dtype];
    [by intros ?%elem_of_nil|].
  intros [[= <- <-]|Hin]%elem_of_cons.
  - rewrite decide_False by done. by left.
  - case_decide; [by right|]. right. by apply IH.
Qed.


Section imputation.
Context {pd : Pandas}.





End imputation.



(** ** No row in the year range *)

Section no_row.
Context {pd : Pandas}.

Lemma in_range_no_row (d : DataFrame) :
  (∀ c, c ∈ column "period" d →
     between 1990 2025 (dt_year (to_datetime_coerce (column "period" d) c)) = false) →
  rows (in_range (converted d)) = [].
Proof.
  intros Hout. destruct (rows (in_range (converted d))) as [|[i r1] rest] eqn:Hrows; [done|].
  destruct (in_range_rows d i r1) as (r0 & y & m & dd & Hin0 & Hconv & _ & Hy).
  { rewrite Hrows. by left. }
  assert (Hc : r0 !!! "period" ∈ column "period" d).
  { unfold column. apply list_elem_of_fmap. by exists (i, r0). }
  specialize (Hout _ Hc). rewrite Hconv in Hout. cbn in Hout.
  apply andb_false_iff in Hout as [Hf|Hf]; apply bool_decide_eq_false in Hf; lia.
Qed.

Lemma cleaned_no_row (d : DataFrame) :
  has_column "period" d = true →
  has_column "value" d = true →
  rows (in_range (converted d)) = [] →
  cleaned d = Raise (KeyError (KInt 0)).
Proof.
  intros Hp Hv Hrows. unfold cleaned, working_table.
  rewrite Hp, has_column_in_range_converted, Hv by done. cbv zeta.
  set (d2 := drop_duplicates (numeric_value (in_range (converted d)))).
  set (d3 := fillna_median (select_number d2) d2).
  assert (Hrows3 : rows d3 = []).
  { unfold d3. rewrite rows_fillna_median. unfold d2, drop_duplicates, numeric_value.
    cbn [rows setitem]. rewrite Hrows. done. }
  assert (Hperiod : ("period", datetime64) ∈ columns d3).
  { unfold d3, fillna_median.
    assert (Hcols : ∀ cols, columns (foldr (λ c acc,
                      setitem_same c (fillna (of_float (median (column c d2)))
                                        <$> column c d2) acc) d2 cols) = columns d2).
    { intros cols. induction cols as [|c cols IH]; [done|]. cbn. exact IH. }
    rewrite Hcols. cbn [columns d2 drop_duplicates numeric_value setitem in_range
                          getitem_mask converted].
    apply set_dtype_elem_other; [done|apply set_dtype_elem]. }
  destruct (select_exclude_number d3) as [|c0 rest] eqn:Hsel.
  { assert (Hin : "period" ∈ select_exclude_number d3).
    { unfold select_exclude_number. apply list_elem_of_fmap.
      exists ("period", datetime64). split; [done|].
      apply list_elem_of_filter. split; [done|done]. }
    rewrite Hsel in Hin. by apply elem_of_nil in Hin. }
  cbn [fill_modes].
  assert (Hc0 : has_column c0 d3 = true).
  { apply bool_decide_eq_true.
    assert (Hin : c0 ∈ select_exclude_number d3) by (rewrite Hsel; by left).
    unfold select_exclude_number in Hin.
    apply list_elem_of_fmap in Hin as (cd & -> & [_ Hin]%list_elem_of_filter).
    unfold names. apply list_elem_of_fmap. by exists cd. }
  rewrite Hc0. unfold column. rewrite Hrows3. done.
Qed.

End no_row.

(** X6.  When the table has the period and value columns and no row whose
    period is a date of a year in [1990, 2025] (in particular when it has no
    row at all), clean_petroleum_data does not return an empty table: the
    first column that is not numeric has no mode, and [mode()[0]] of line 91
    raises KeyError(0). *)
Theorem clean_raises_without_row_in_range {pd : Pandas}
    (w : world) (l : ref) (d : DataFrame) :
  heap w !! l = Some d →
  has_column "period" d = true →
  has_column "value" d = true →
  (∀ c, c ∈ column "period" d →
     between 1990 2025 (dt_year (to_datetime_coerce (column "period" d) c)) = false) →
  ∃ w', clean_petroleum_data l w = (Raise (KeyError (KInt 0)), w').
Proof.
  intros Hl Hp Hv Hout. pose proof (clean_run w l d Hl) as Hrun.
  by rewrite (cleaned_no_row d Hp Hv (in_range_no_row d Hout)) in Hrun.
Qed.

Lemma clean_raises_without_row_in_range_witness :
  ∃ w', clean_petroleum_data (pd := pandas_ascii) 0
          (world_of [out_of_range_input] unavailable)
        = (Raise (KeyError (KInt 0)), w').
Proof.
  apply (clean_raises_without_row_in_range (pd := pandas_ascii)
           (world_of [out_of_range_input] unavailable) 0%nat out_of_range_input).
  - reflexivity.
  - vm_compute. reflexivity.
  - vm_compute. reflexivity.
  - intros c Hc. vm_compute in Hc.
    apply elem_of_cons in Hc as [->|Hc]; [vm_compute; reflexivity|].
    by apply elem_of_nil in Hc.
Defined.

(** ** fetch_petroleum_data and main *)

Lemma labels_imap {A B} (f : A → B) (l : list A) :
  (imap (λ i x, (i, f x)) l).*1 = seq 0 (length l).
Proof.
  apply list_eq. intros i. rewrite list_lookup_fmap, list_lookup_imap.
  destruct (l !! i) as [x|] eqn:Hi; cbn.
  - symmetry. apply lookup_seq. split; [done|]. by eapply lookup_lt_Some.
  - symmetry. apply lookup_seq_ge. by apply lookup_ge_None.
Qed.

(** X7.  On status 200 with a data array that has rows, fetch_petroleum_data
    builds one table row per record, labelled 0, 1, 2, ..., adds that table
    to the store and returns it, and writes it to the raw CSV (a header line
    and one line per record) after creating data and data/raw; no other file
    is touched. *)
Theorem fetch_returns_and_persists_rows (w : world) (api_key : string)
    (records : list (list (string * cell))) :
  let response := network w (fetch_request api_key) in
  status_code response = 200%Z →
  content response = JsonDict (ResponseDict (DataRows records)) →
  records ≠ [] →
  ∃ w',
    fetch_petroleum_data api_key w = (Return (length (heap w)), w')
    ∧ heap w' = heap w ++ [table_of records]
    ∧ files w' = <[raw_csv := Text (csv_lines (table_of records))]> (files w)
    ∧ dirs w' = {["data"; "data/raw"]} ∪ dirs w
    ∧ (rows (table_of records)).*1 = seq 0 (length records)
    ∧ length (csv_lines (table_of records)) = S (length records).
Proof.
  cbv zeta. intros Hok Hbody Hrows.
  pose proof (fetch_run w api_key) as Hrun. cbv zeta in Hrun.
  rewrite Hok, Hbody in Hrun. rewrite decide_False in Hrun by (by intros ?).
  cbn [json_data DataFrame_of] in Hrun.
  assert (Htruthy : truthy (PyList records) = true) by (by destruct records).
  rewrite Htruthy in Hrun.
  eexists. split; [exact Hrun|].
  cbn [heap files dirs with_files with_dirs with_heap].
  split; [done|]. split; [done|]. split; [cbn; f_equal; set_solver|].
  assert (Hlabels : (rows (table_of records)).*1 = seq 0 (length records)).
  { unfold table_of, DataFrame_of_records. cbn [rows default]. apply labels_imap. }
  split; [done|].
  unfold csv_lines. cbn [length]. rewrite length_fmap.
  apply (f_equal length) in Hlabels. rewrite length_fmap, length_seq in Hlabels.
  by rewrite Hlabels.
Qed.

Lemma fetch_returns_and_persists_rows_witness :
  let w := world_of [] two_rows in
  let records := [raw_record "2020" "2.0" "EPMR" "NUS";
                  raw_record "2021" "3.0" "EPMR" "NUS"] in
  ∃ w',
    fetch_petroleum_data "key" w = (Return (length (heap w)), w')
    ∧ heap w' = heap w ++ [table_of records]
    ∧ files w' = <[raw_csv := Text (csv_lines (table_of records))]> (files w)
    ∧ dirs w' = {["data"; "data/raw"]} ∪ dirs w
    ∧ (rows (table_of records)).*1 = seq 0 (length records)
    ∧ length (csv_lines (table_of records)) = S (length records).
Proof.
  cbv zeta.
  apply (fetch_returns_and_persists_rows (world_of [] two_rows) "key").
  - reflexivity.
  - reflexivity.
  - discriminate.
Defined.

(** X8.  On status 200, a body that is not the expected envelope makes
    fetch_petroleum_data fail at lines 100-101, before the directory and the
    file of lines 103-110 are made: a body that is not JSON raises the JSON
    decoding error; a JSON value that is not an object, or whose "response"
    is not an object, raises AttributeError; a "data" that is a boolean, a
    string, a number or an object of scalars with a field raises the
    ValueError of pd.DataFrame.  The world is as it was in each case. *)
Theorem fetch_malformed_body_raises_before_writing (w : world) (api_key : string) :
  let response := network w (fetch_request api_key) in
  status_code response = 200%Z →
  (content response = NotJson →
   fetch_petroleum_data api_key w = (Raise JSONDecodeError, w))
  ∧ (content response ∈ [JsonNotDict; JsonDict ResponseNotDict] →
     fetch_petroleum_data api_key w = (Raise AttributeError, w))
  ∧ (∀ data,
       content response = JsonDict (ResponseDict data) →
       (∃ b, data = DataBool b) ∨ (∃ s, data = DataString s)
       ∨ (∃ x, data = DataNumber x) ∨ (∃ f fields, data = DataObject (f :: fields)) →
       fetch_petroleum_data api_key w = (Raise ValueError, w)).
Proof.
  cbv zeta. intros Hok.
  pose proof (fetch_run w api_key) as Hrun. cbv zeta in Hrun.
  rewrite Hok in Hrun. rewrite decide_False in Hrun by (by intros ?).
  refine (conj _ (conj _ _)).
  - intros Hbody. by rewrite Hbody in Hrun.
  - intros Hbody. rewrite Hrun.
    apply elem_of_cons in Hbody as [->|Hbody]; [done|].
    apply list_elem_of_singleton in Hbody as ->. done.
  - intros data Hbody Hdata. rewrite Hbody in Hrun. rewrite Hrun.
    destruct Hdata as [[b ->]|[[s ->]|[[x ->]|(f & fields & ->)]]]; done.
Qed.

Lemma fetch_malformed_body_raises_before_writing_witness :
  let w := world_of [] message_for_data in
  fetch_petroleum_data "key" w = (Raise ValueError, w).
Proof.
  cbv zeta.
  destruct (fetch_malformed_body_raises_before_writing
              (world_of [] message_for_data) "key" eq_refl) as (_ & _ & Hdata).
  apply (Hdata (DataString "no data") eq_refl).
  right. left. by exists "no data".
Defined.

Section main_failure.
Context {pd : Pandas} {plotly : Plotly} {sns : Seaborn}.

Lemma main_run_failed_request (w : world) :
  let response :=
    network w (fetch_request
                 (default "eg3hiIakLLsprBiSiTVP4C1Wz0NeLYPLISKYe5ap"
                    (environ w !! "EIA_API_KEY"))) in
  status_code response ≠ 200%Z →
  main w = (Raise (RuntimeError (status_code response)), w).
Proof.
  cbv zeta. intros Hne. unfold main, bind at 1, getenv at 1.
  unfold bind at 1. rewrite fetch_run. cbv zeta. by rewrite decide_True.
Qed.

End main_failure.

(** X9.  [main] asks the service with the key of the environment variable
    EIA_API_KEY, or with the literal fallback key when the variable is not
    set, and a status other than 200 aborts the run at once: [main] raises
    the RuntimeError of that status and writes nothing. *)
Theorem main_aborts_on_failed_request {pd : Pandas} {plotly : Plotly} {sns : Seaborn}
    (w : world) :
  let api_key :=
    match environ w !! "EIA_API_KEY" with
    | Some key => key
    | None => "eg3hiIakLLsprBiSiTVP4C1Wz0NeLYPLISKYe5ap"
    end in
  let response := network w (fetch_request api_key) in
  status_code response ≠ 200%Z →
  main w = (Raise (RuntimeError (status_code response)), w).
Proof.
  cbv zeta. intros Hne. pose proof (main_run_failed_request w) as Hrun.
  cbv zeta in Hrun. unfold default in Hrun.
  destruct (environ w !! "EIA_API_KEY"); by apply Hrun.
Qed.

Lemma main_aborts_on_failed_request_witness :
  let w := world_of [] unavailable in
  main (pd := pandas_ascii) (plotly := plotly_columns) (sns := seaborn_idle) w
  = (Raise (RuntimeError 503), w).
Proof.
  cbv zeta.
  apply (main_aborts_on_failed_request (pd := pandas_ascii) (plotly := plotly_columns)
           (sns := seaborn_idle) (world_of [] unavailable)).
  vm_compute. discriminate.
Defined.

(** X13.  Running main.py prints "All Seaborn plots saved in
    'outputs/plots'" and then "All Plotly plots saved in 'outputs'" while
    scripts/visualize_seaborn.py and scripts/visualize_plotly.py are
    imported, before [main] starts: on a failed request the run raises the
    RuntimeError, has written no file, and still has printed the two lines
    and created outputs/plots. *)
Theorem main_py_reports_plots_saved_before_running
    {pd : Pandas} {plotly : Plotly} {sns : Seaborn} (w : world) :
  let response :=
    network w (fetch_request
                 (default "eg3hiIakLLsprBiSiTVP4C1Wz0NeLYPLISKYe5ap"
                    (environ w !! "EIA_API_KEY"))) in
  status_code response ≠ 200%Z →
  ∃ w',
    main_py w = (Raise (RuntimeError (status_code response)), w')
    ∧ stdout w' = stdout w ++ ["✅ All Seaborn plots saved in 'outputs/plots'";
                               "✅ All Plotly plots saved in 'outputs'"]
    ∧ PLOT_DIR ∈ dirs w'
    ∧ files w' = files w
    ∧ heap w' = heap w.
Proof.
  cbv zeta. intros Hne.
  unfold main_py, import_fetch_data, import_clean_data, import_visualize_seaborn,
    import_visualize_plotly.
  unfold bind at 1, mkdir at 1. unfold bind at 1, mkdir at 1.
  unfold bind at 1. unfold bind at 1, mkdir at 1. unfold print at 1.
  unfold bind at 1, print at 1.
  match goal with
  | |- ∃ w', main ?w4 = _ ∧ _ =>
      pose proof (main_run_failed_request w4) as Hrun
  end.
  cbv zeta in Hrun. cbn [environ network with_stdout with_dirs] in Hrun.
  eexists. split; [by apply Hrun|].
  cbn [stdout dirs files heap with_stdout with_dirs].
  split; [by rewrite <- app_assoc|]. split; [|done]. unfold PLOT_DIR. set_solver.
Qed.

Lemma main_py_reports_plots_saved_before_running_witness :
  let w := world_of [] unavailable in
  ∃ w',
    main_py (pd := pandas_ascii) (plotly := plotly_columns) (sns := seaborn_idle) w
    = (Raise (RuntimeError 503), w')
    ∧ stdout w' = stdout w ++ ["✅ All Seaborn plots saved in 'outputs/plots'";
                               "✅ All Plotly plots saved in 'outputs'"]
    ∧ PLOT_DIR ∈ dirs w'
    ∧ files w' = files w
    ∧ heap w' = heap w.
Proof.
  cbv zeta.
  apply (main_py_reports_plots_saved_before_running (pd := pandas_ascii)
           (plotly := plotly_columns) (sns := seaborn_idle) (world_of [] unavailable)).
  vm_compute. discriminate.
Defined.

(** ** create_all_charts after the year column *)

Lemma mask_rows_all_false {A} (l : list A) (mask : list bool) :
  (∀ b, b ∈ mask → b = false) → mask_rows l mask = [].
Proof.
  revert mask. induction l as [|x l IH]; intros [|b mask] Hall; try done.
  cbn. rewrite (Hall b) by (by left). apply IH. intros b' Hb'. apply Hall. by right.
Qed.

Section charts_tail.
Context {pd : Pandas} {plotly : Plotly}.

(** The whole function when the two first charts are built and the period
    converts. *)
Lemma create_all_charts_run_from_year (w : world) (df : ref) (d : DataFrame)
    (dates : list cell) :
  heap w !! df = Some d →
  px_validate scatter_prices d = None →
  px_validate price_trend d = None →
  has_column "period" d = true →
  to_datetime_raise (column "period" d) = Some dates →
  let d' := setitem "year" object (year_strs dates) d in
  let regional := getitem_mask (isin ["2021"; "2024"; "2025"] <$> year_strs dates) d' in
  let w3 :=
    with_files
      (<["outputs/price_trend.html" := Html (update_xaxes 60 (mkFigure price_trend d None))]>
         (<["outputs/scatter_prices.html" := Html (mkFigure scatter_prices d None)]>
            (files w)))
      (with_dirs (list_to_set ["outputs"] ∪ dirs w) w) in
  let w4 := with_heap (<[df := d']> (heap w) ++ [regional]) w3 in
  let bars :=
    if empty regional then
      (Return tt,
       with_stdout (stdout w ++ ["⚠️ No regional data found for 2021, 2024, or 2025."]) w4)
    else
      match px_validate regional_cost regional with
      | Some e => (Raise e, w4)
      | None =>
          let w5 :=
            with_files
              (<["outputs/regional_cost.html" :=
                   Html (update_xaxes 60 (mkFigure regional_cost regional None))]>
                 (files w4)) w4 in
          match px_validate fuel_type_comparison regional with
          | Some e => (Raise e, w5)
          | None =>
              (Return tt,
               with_files
                 (<["outputs/fuel_type_comparison.html" :=
                      Html (update_xaxes 45 (mkFigure fuel_type_comparison regional None))]>
                    (files w5)) w5)
          end
      end in
  create_all_charts df w
  = match bars with
    | (Raise e, w6) => (Raise e, w6)
    | (Return _, w6) =>
        match px_validate national_vs_states d' with
        | Some e => (Raise e, w6)
        | None =>
            (Return tt,
             with_files
               (<["outputs/national_vs_states.html" :=
                    Html (update_xaxes 60 (mkFigure national_vs_states d' None))]>
                  (files w6)) w6)
        end
    end.
Proof.
  intros Hdf Hfig1 Hfig2 Hp Hdates. cbv zeta.
  set (d' := setitem "year" object (year_strs dates) d).
  set (regional := getitem_mask (isin ["2021"; "2024"; "2025"] <$> year_strs dates) d').
  unfold create_all_charts, bind at 1, mkdir at 1.
  set (w1 := with_dirs _ w).
  assert (H1 : heap w1 !! df = Some d) by done.
  unfold bind at 1. rewrite (px_run _ _ _ _ H1), Hfig1.
  unfold bind at 1, write_html at 1, write_file at 1.
  set (w2 := with_files _ w1).
  assert (H2 : heap w2 !! df = Some d) by done.
  unfold bind at 1. rewrite (px_run _ _ _ _ H2), Hfig2.
  unfold bind at 1, write_html at 1, write_file at 1.
  set (w3 := with_files _ w2).
  assert (H3 : heap w3 !! df = Some d) by done.
  unfold bind at 1. rewrite (getitem_run _ _ _ _ H3), Hp.
  unfold bind at 1. rewrite Hdates. unfold ret at 1.
  unfold bind at 1. rewrite (update_run _ _ _ _ H3). fold d'.
  set (w3' := with_heap (<[df:=d']> (heap w3)) w3).
  assert (H3' : heap w3' !! df = Some d') by (by apply (lookup_heap_insert _ _ d)).
  assert (Hyear : column "year" d' = year_strs dates).
  { apply set_cells_same. unfold year_strs. rewrite length_fmap.
    apply length_mapM in Hdates. by rewrite <- Hdates, length_column. }
  unfold bind at 1. rewrite (getitem_run _ _ _ _ H3').
  unfold d' at 1. rewrite has_column_setitem_eq. fold d'. rewrite Hyear.
  unfold bind at 1. rewrite (deref_run _ _ _ H3'). fold regional.
  unfold bind at 1, new at 1.
  set (w4 := with_heap (heap w3' ++ [regional]) w3').
  assert (Hreg : heap w4 !! length (heap w3') = Some regional)
    by (by apply list_lookup_middle).
  assert (H4 : heap w4 !! df = Some d') by (by apply lookup_app_l_Some).
  unfold bind at 1. rewrite (deref_run _ _ _ Hreg).
  unfold bind at 1.
  destruct (empty regional).
  - unfold print at 1. unfold bind at 1.
    rewrite px_run with (d := d') by exact H4.
    destruct (px_validate national_vs_states d'); done.
  - unfold bind at 1. rewrite (px_run _ _ _ _ Hreg).
    destruct (px_validate regional_cost regional); [done|].
    unfold bind at 1, write_html at 1, write_file at 1.
    unfold bind at 1. rewrite px_run with (d := regional) by exact Hreg.
    destruct (px_validate fuel_type_comparison regional); [done|].
    unfold write_html at 1, write_file at 1. unfold bind at 1.
    rewrite px_run with (d := d') by exact H4.
    destruct (px_validate national_vs_states d'); done.
Qed.

End charts_tail.

(** X11.  When no period of the table is of 2021, 2024 or 2025,
    create_all_charts prints the warning and skips the two bar charts
    instead of failing on the empty selection: their two documents are left
    as they were, and the scatter and trend documents are written. *)
Theorem create_all_charts_skips_empty_regional_data {pd : Pandas} {plotly : Plotly}
    (w : world) (df : ref) (d : DataFrame) (dates : list cell) :
  heap w !! df = Some d →
  px_validate scatter_prices d = None →
  px_validate price_trend d = None →
  has_column "period" d = true →
  to_datetime_raise (column "period" d) = Some dates →
  (∀ c, c ∈ year_strs dates → isin ["2021"; "2024"; "2025"] c = false) →
  ∃ res w',
    create_all_charts df w = (res, w')
    ∧ stdout w' = stdout w ++ ["⚠️ No regional data found for 2021, 2024, or 2025."]
    ∧ files w' !! "outputs/regional_cost.html" = files w !! "outputs/regional_cost.html"
    ∧ files w' !! "outputs/fuel_type_comparison.html"
      = files w !! "outputs/fuel_type_comparison.html"
    ∧ is_Some (files w' !! "outputs/scatter_prices.html")
    ∧ is_Some (files w' !! "outputs/price_trend.html").
Proof.
  intros Hdf Hfig1 Hfig2 Hp Hdates Hnone.
  rewrite (create_all_charts_run_from_year w df d dates) by done. cbv zeta.
  set (d' := setitem "year" object (year_strs dates) d).
  assert (Hempty : empty (getitem_mask (isin ["2021"; "2024"; "2025"] <$> year_strs dates) d')
                   = true).
  { unfold empty. cbn [rows columns getitem_mask].
    rewrite mask_rows_all_false; [by destruct (columns d')|].
    intros b (c & -> & Hc)%list_elem_of_fmap. by apply Hnone. }
  rewrite Hempty.
  destruct (px_validate national_vs_states d'); eexists _, _; (split; [done|]);
    cbn [stdout files with_stdout with_files with_heap with_dirs];
    (split; [done|]);
    (split; [by rewrite !lookup_insert_ne by done|]);
    (split; [by rewrite !lookup_insert_ne by done|]);
    rewrite ?(lookup_insert_ne _ "outputs/national_vs_states.html") by done;
    (split; [rewrite lookup_insert_ne by done|]);
    rewrite lookup_insert_eq; by eexists.
Qed.

Lemma create_all_charts_skips_empty_regional_data_witness :
  let w := world_of [charts_2019_input] unavailable in
  ∃ res w',
    create_all_charts (pd := pandas_ascii) (plotly := plotly_columns) 0 w = (res, w')
    ∧ stdout w' = stdout w ++ ["⚠️ No regional data found for 2021, 2024, or 2025."]
    ∧ files w' !! "outputs/regional_cost.html" = files w !! "outputs/regional_cost.html"
    ∧ files w' !! "outputs/fuel_type_comparison.html"
      = files w !! "outputs/fuel_type_comparison.html"
    ∧ is_Some (files w' !! "outputs/scatter_prices.html")
    ∧ is_Some (files w' !! "outputs/price_trend.html").
Proof.
  cbv zeta.
  apply (create_all_charts_skips_empty_regional_data (pd := pandas_ascii)
           (plotly := plotly_columns) (world_of [charts_2019_input] unavailable) 0%nat
           charts_2019_input [Timestamp 2019 1 1]).
  - reflexivity.
  - vm_compute. reflexivity.
  - vm_compute. reflexivity.
  - vm_compute. reflexivity.
  - vm_compute. reflexivity.
  - intros c Hc. vm_compute in Hc.
    apply elem_of_cons in Hc as [->|Hc]; [vm_compute; reflexivity|].
    by apply elem_of_nil in Hc.
Defined.

(** X12.  When plotly builds the five charts and some period is of 2021,
    2024 or 2025, create_all_charts returns normally, prints nothing, has
    created the directory outputs and written its five documents; the bar
    charts are drawn from the rows of those years only, and the last chart
    from the table with its new year column. *)
Theorem create_all_charts_writes_five_documents {pd : Pandas} {plotly : Plotly}
    (w : world) (df : ref) (d : DataFrame) (dates : list cell) :
  heap w !! df = Some d →
  px_validate scatter_prices d = None →
  px_validate price_trend d = None →
  has_column "period" d = true →
  to_datetime_raise (column "period" d) = Some dates →
  let d' := setitem "year" object (year_strs dates) d in
  let regional := getitem_mask (isin ["2021"; "2024"; "2025"] <$> year_strs dates) d' in
  empty regional = false →
  px_validate regional_cost regional = None →
  px_validate fuel_type_comparison regional = None →
  px_validate national_vs_states d' = None →
  ∃ w',
    create_all_charts df w = (Return tt, w')
    ∧ stdout w' = stdout w
    ∧ "outputs" ∈ dirs w'
    ∧ files w' !! "outputs/scatter_prices.html" = Some (Html (mkFigure scatter_prices d None))
    ∧ files w' !! "outputs/price_trend.html"
      = Some (Html (update_xaxes 60 (mkFigure price_trend d None)))
    ∧ files w' !! "outputs/regional_cost.html"
      = Some (Html (update_xaxes 60 (mkFigure regional_cost regional None)))
    ∧ files w' !! "outputs/fuel_type_comparison.html"
      = Some (Html (update_xaxes 45 (mkFigure fuel_type_comparison regional None)))
    ∧ files w' !! "outputs/national_vs_states.html"
      = Some (Html (update_xaxes 60 (mkFigure national_vs_states d' None))).
Proof.
  intros Hdf Hfig1 Hfig2 Hp Hdates. cbv zeta. intros Hempty Hfig3 Hfig4 Hfig5.
  rewrite (create_all_charts_run_from_year w df d dates) by done. cbv zeta.
  rewrite Hempty, Hfig3, Hfig4, Hfig5.
  eexists. split; [done|].
  cbn [stdout dirs files with_stdout with_files with_heap with_dirs].
  split; [done|]. split; [set_solver|].
  repeat split; rewrite ?lookup_insert_ne by done; by rewrite lookup_insert_eq.
Qed.

Lemma create_all_charts_writes_five_documents_witness :
  let w := world_of [charts_input] unavailable in
  let d' := setitem "year" object (year_strs [Timestamp 2024 1 1]) charts_input in
  let regional :=
    getitem_mask (isin ["2021"; "2024"; "2025"] <$> year_strs [Timestamp 2024 1 1]) d' in
  ∃ w',
    create_all_charts (pd := pandas_ascii) (plotly := plotly_columns) 0 w = (Return tt, w')
    ∧ stdout w' = stdout w
    ∧ "outputs" ∈ dirs w'
    ∧ files w' !! "outputs/scatter_prices.html"
      = Some (Html (mkFigure scatter_prices charts_input None))
    ∧ files w' !! "outputs/price_trend.html"
      = Some (Html (update_xaxes 60 (mkFigure price_trend charts_input None)))
    ∧ files w' !! "outputs/regional_cost.html"
      = Some (Html (update_xaxes 60 (mkFigure regional_cost regional None)))
    ∧ files w' !! "outputs/fuel_type_comparison.html"
      = Some (Html (update_xaxes 45 (mkFigure fuel_type_comparison regional None)))
    ∧ files w' !! "outputs/national_vs_states.html"
      = Some (Html (update_xaxes 60 (mkFigure national_vs_states d' None))).
Proof.
  cbv zeta.
  apply (create_all_charts_writes_five_documents (pd := pandas_ascii)
           (plotly := plotly_columns) (world_of [charts_input] unavailable) 0%nat
           charts_input [Timestamp 2024 1 1]); vm_compute; reflexivity.
Defined.
